(** * Simply Writer: the editor's synchronisation, export and geometry code

    A shallow embedding of the three editor variants of the repository
    (the networked [frontend-web/src/App.vue] and the two standalone
    variants that export through a download link), followed by the
    properties established about them.

    - [Js]         JavaScript strings, as sequences of UTF-16 code units.
    - [Web]        the networked editor: link state, [loadContent],
                   [handleSaveFile], [checkLink] and the event loop that
                   interleaves them.
    - [Standalone] the export path: [purifyFilename], [requestTitle],
                   [downloadFilename].
    - [Geometry]   [syncPageHeight] and the zoom functions, over IEEE
                   binary64 numbers (the kernel's primitive floats). *)

From Stdlib Require Import List ZArith NArith Bool Lia String Ascii.
From Stdlib Require Import Floats QArith Qabs.
Close Scope Q_scope.
Import ListNotations.

(* ================================================================== *)
(** * Part I: the embedding                                            *)
(* ================================================================== *)

(** ** JavaScript strings *)

Module Js.

(** A JavaScript string is a finite sequence of 16-bit code units. *)
Definition str := list N.

(** [a === b] on strings. *)
Fixpoint eqb (a b : str) : bool :=
  match a, b with
  | [], [] => true
  | x :: a', y :: b' => N.eqb x y && eqb a' b'
  | _, _ => false
  end.

(** An ASCII literal of the source, as code units. *)
Definition lit (s : string) : str :=
  List.map N_of_ascii (list_ascii_of_string s).

(** [WhiteSpace] and [LineTerminator] of ECMAScript: what
    [String.prototype.trim] removes at both ends. *)
Definition isWhite (c : N) : bool :=
  (N.eqb c 9 || N.eqb c 10 || N.eqb c 11 || N.eqb c 12 || N.eqb c 13
   || N.eqb c 32 || N.eqb c 160 || N.eqb c 5760
   || (N.leb 8192 c && N.leb c 8202)
   || N.eqb c 8232 || N.eqb c 8233 || N.eqb c 8239 || N.eqb c 8287
   || N.eqb c 12288 || N.eqb c 65279)%bool.

Fixpoint trimStart (s : str) : str :=
  match s with
  | c :: s' => if isWhite c then trimStart s' else s
  | [] => []
  end.

Definition trimEnd (s : str) : str := rev (trimStart (rev s)).

Definition trim (s : str) : str := trimEnd (trimStart s).

End Js.

(** ** The networked editor ([frontend-web/src/App.vue]) *)

Module Web.

(** [type SaveState = { type: "unlinked" } | { type: "linked"; dirty }] *)
Inductive SaveState : Type :=
| unlinked
| linked (dirty : bool).

Definition isLinked (s : SaveState) : bool :=
  match s with linked _ => true | unlinked => false end.

Definition isDirty (s : SaveState) : bool :=
  match s with linked d => d | unlinked => false end.

Definition shouldWarnOnLeave (s : SaveState) : bool :=
  match s with unlinked => true | linked d => d end.

Definition markLinked (dirty : bool) (_ : SaveState) : SaveState :=
  linked dirty.

Definition markUnlinked (_ : SaveState) : SaveState := unlinked.

Definition markDirty (s : SaveState) : SaveState :=
  match s with linked _ => linked true | unlinked => unlinked end.

Definition markSaved (s : SaveState) : SaveState :=
  match s with linked _ => linked false | unlinked => unlinked end.

(** The JSON object exchanged with the backend, in both directions:
    [{ content, title, saved }]. *)
Record Doc : Type := mkDoc {
  data_content : Js.str;
  data_title : option Js.str;
  data_saved : bool
}.

Inductive Url : Type := API_CONTENT_URL | API_STATUS_URL.

Inductive Request : Type :=
| GET (url : Url)
| POST (url : Url) (body : Doc).

(** What the component does to the outside, most recent first. *)
Inductive Effect : Type :=
| Fetch (r : Request)
| Alert (msg : Js.str)
| ConsoleError
| SetTimeout_checkLink (ms : Z).

(** Who awaits a running [loadContent]: the first [onMounted] hook
    (which then calls [syncPageHeight]) or [checkLink] (which then runs
    its [finally]). *)
Inductive Caller : Type := FromMounted | FromCheckLink.

(** An async function suspended at one of its [await]s. *)
Inductive Suspended : Type :=
| LoadFetch (c : Caller)   (* loadContent, at [await fetch(API_CONTENT_URL)] *)
| LoadJson (c : Caller)    (* loadContent, at [await response.json()] *)
| SaveFetch                (* handleSaveFile, at [await fetch(..., POST)] *)
| SaveJson                 (* handleSaveFile, at [await response.json()] *)
| StatusFetch.             (* checkLink, at [await fetch(API_STATUS_URL)] *)

Definition Suspended_eqb (a b : Suspended) : bool :=
  match a, b with
  | LoadFetch FromMounted, LoadFetch FromMounted
  | LoadFetch FromCheckLink, LoadFetch FromCheckLink
  | LoadJson FromMounted, LoadJson FromMounted
  | LoadJson FromCheckLink, LoadJson FromCheckLink
  | SaveFetch, SaveFetch
  | SaveJson, SaveJson
  | StatusFetch, StatusFetch => true
  | _, _ => false
  end.

(** The reactive cells of the component, the promises it waits for, the
    timers it has set and the effects it has had. *)
Record World : Type := mkWorld {
  text : Js.str;
  title : option Js.str;
  saveState : SaveState;
  lastSavedContent : Js.str;
  isLoading : bool;
  suspended : list Suspended;
  timers : list Z;
  effects : list Effect
}.

Definition set_text (v : Js.str) (w : World) : World :=
  mkWorld v (title w) (saveState w) (lastSavedContent w) (isLoading w)
          (suspended w) (timers w) (effects w).

Definition set_title (v : option Js.str) (w : World) : World :=
  mkWorld (text w) v (saveState w) (lastSavedContent w) (isLoading w)
          (suspended w) (timers w) (effects w).

Definition set_saveState (v : SaveState) (w : World) : World :=
  mkWorld (text w) (title w) v (lastSavedContent w) (isLoading w)
          (suspended w) (timers w) (effects w).

Definition set_lastSavedContent (v : Js.str) (w : World) : World :=
  mkWorld (text w) (title w) (saveState w) v (isLoading w)
          (suspended w) (timers w) (effects w).

Definition set_isLoading (v : bool) (w : World) : World :=
  mkWorld (text w) (title w) (saveState w) (lastSavedContent w) v
          (suspended w) (timers w) (effects w).

Definition set_suspended (v : list Suspended) (w : World) : World :=
  mkWorld (text w) (title w) (saveState w) (lastSavedContent w)
          (isLoading w) v (timers w) (effects w).

Definition set_timers (v : list Z) (w : World) : World :=
  mkWorld (text w) (title w) (saveState w) (lastSavedContent w)
          (isLoading w) (suspended w) v (effects w).

Definition emit (e : Effect) (w : World) : World :=
  mkWorld (text w) (title w) (saveState w) (lastSavedContent w)
          (isLoading w) (suspended w) (timers w) (e :: effects w).

(** [await]: the running function is parked until its promise settles. *)
Definition await (k : Suspended) (w : World) : World :=
  set_suspended (k :: suspended w) w.

Definition CHECK_LINK_MS : Z := 1000 * 30.

(** [setTimeout(checkLink, ms)] *)
Definition setTimeout_checkLink (ms : Z) (w : World) : World :=
  set_timers (timers w ++ [ms]) (emit (SetTimeout_checkLink ms) w).

(** [watch(text, (newText) => ...)] *)
Definition watch_text (newText : Js.str) (w : World) : World :=
  if negb (isLinked (saveState w)) then w
  else if Js.eqb newText (lastSavedContent w)
       then set_saveState (markSaved (saveState w)) w
       else set_saveState (markDirty (saveState w)) w.

(** Vue runs the watcher once the synchronous block that assigned
    [text] is over, and only when the value is not the one [old] the
    block started from. *)
Definition flush_watch (old : Js.str) (w : World) : World :=
  if Js.eqb (text w) old then w else watch_text (text w) w.

(** What runs when an awaited [loadContent] returns. *)
Definition resume (c : Caller) (w : World) : World :=
  match c with
  | FromMounted => w      (* syncPageHeight(): see [Geometry] *)
  | FromCheckLink => setTimeout_checkLink CHECK_LINK_MS w  (* finally *)
  end.

(** [loadContent], up to its first [await]. *)
Definition loadContent (c : Caller) (w : World) : World :=
  if isLoading w then resume c w
  else await (LoadFetch c)
         (emit (Fetch (GET API_CONTENT_URL)) (set_isLoading true w)).

(** [catch] and [finally] of [loadContent]. *)
Definition loadContent_catch (c : Caller) (w : World) : World :=
  resume c
    (set_isLoading false
       (set_saveState (markUnlinked (saveState w)) (emit ConsoleError w))).

(** [loadContent] when [fetch] settles: [None] is a rejection,
    [Some ok] a response with that [response.ok]. *)
Definition loadContent_fetched (c : Caller) (r : option bool) (w : World)
  : World :=
  match r with
  | Some true => await (LoadJson c) w
  | Some false => loadContent_catch c w    (* throw new Error("Load error") *)
  | None => loadContent_catch c w
  end.

(** The assignments [loadContent] makes from the parsed response, in
    its order. *)
Definition adopt_load (data : Doc) (w : World) : World :=
  let w1 := set_title (data_title data) w in
  let w2 := set_text (data_content data) w1 in
  let w3 := set_lastSavedContent (data_content data) w2 in
  if data_saved data
  then set_saveState (markLinked false (saveState w3)) w3
  else set_saveState (markUnlinked (saveState w3)) w3.

(** [loadContent] when [response.json()] settles: [None] is a
    rejection. *)
Definition loadContent_parsed (c : Caller) (d : option Doc) (w : World)
  : World :=
  match d with
  | Some data =>
      resume c (flush_watch (text w) (set_isLoading false (adopt_load data w)))
  | None => loadContent_catch c w
  end.

(** [handleSaveFile], up to its first [await]. *)
Definition handleSaveFile (w : World) : World :=
  if isLoading w then w
  else await SaveFetch
         (emit (Fetch (POST API_CONTENT_URL
                         (mkDoc (text w) (title w) false)))
               (set_isLoading true w)).

Definition save_failure_notice : Js.str :=
  Js.lit "Error in saving files, check your backend state.".

(** [catch] and [finally] of [handleSaveFile]. *)
Definition handleSaveFile_catch (w : World) : World :=
  set_isLoading false
    (emit (Alert save_failure_notice)
          (set_saveState (markUnlinked (saveState w)) w)).

Definition handleSaveFile_fetched (r : option bool) (w : World) : World :=
  match r with
  | Some true => await SaveJson w
  | Some false => handleSaveFile_catch w   (* throw new Error() *)
  | None => handleSaveFile_catch w
  end.

(** The assignments of [handleSaveFile], in its order. *)
Definition adopt_save (data : Doc) (w : World) : World :=
  let w1 := set_text (data_content data) w in
  let w2 := set_title (data_title data) w1 in
  let w3 := set_lastSavedContent (data_content data) w2 in
  if data_saved data
  then set_saveState (markLinked false (saveState w3)) w3
  else set_saveState (markUnlinked (saveState w3)) w3.

Definition handleSaveFile_parsed (d : option Doc) (w : World) : World :=
  match d with
  | Some data =>
      flush_watch (text w) (set_isLoading false (adopt_save data w))
  | None => handleSaveFile_catch w
  end.

(** [checkLink], up to its [await]. *)
Definition checkLink (w : World) : World :=
  await StatusFetch (emit (Fetch (GET API_STATUS_URL)) w).

(** [checkLink] when the status [fetch] settles. Every path ends in the
    [finally] block; the one through [await loadContent()] reaches it
    when that call returns ([resume FromCheckLink]). *)
Definition checkLink_fetched (r : option bool) (w : World) : World :=
  match r with
  | Some true =>
      match saveState w with
      | linked false => loadContent FromCheckLink w
      | _ => setTimeout_checkLink CHECK_LINK_MS w
      end
  | Some false =>
      setTimeout_checkLink CHECK_LINK_MS
        (set_saveState (markUnlinked (saveState w)) w)
  | None =>
      setTimeout_checkLink CHECK_LINK_MS
        (set_saveState (markUnlinked (saveState w)) w)
  end.

(** *** The event loop *)

(** How an awaited promise settles. *)
Inductive Settlement : Type :=
| Rejects
| Response (ok : bool)
| Json (data : Doc).

Inductive Event : Type :=
| Input (newText : Js.str)   (* the textarea's v-model assigns [text] *)
| SaveRequest                (* Ctrl+S, or a click on the save indicator *)
| TimerFires                 (* a [setTimeout(checkLink, _)] expires *)
| Settles (k : Suspended) (r : Settlement).

Fixpoint remove_first (k : Suspended) (l : list Suspended)
  : option (list Suspended) :=
  match l with
  | [] => None
  | x :: l' =>
      if Suspended_eqb k x then Some l'
      else option_map (cons x) (remove_first k l')
  end.

(** The continuation of [k] on settlement [r]; [None] when [r] is not a
    way the promise [k] waits for can settle. *)
Definition continue (k : Suspended) (r : Settlement) (w : World)
  : option World :=
  match k, r with
  | LoadFetch c, Rejects => Some (loadContent_fetched c None w)
  | LoadFetch c, Response ok => Some (loadContent_fetched c (Some ok) w)
  | LoadJson c, Rejects => Some (loadContent_parsed c None w)
  | LoadJson c, Json d => Some (loadContent_parsed c (Some d) w)
  | SaveFetch, Rejects => Some (handleSaveFile_fetched None w)
  | SaveFetch, Response ok => Some (handleSaveFile_fetched (Some ok) w)
  | SaveJson, Rejects => Some (handleSaveFile_parsed None w)
  | SaveJson, Json d => Some (handleSaveFile_parsed (Some d) w)
  | StatusFetch, Rejects => Some (checkLink_fetched None w)
  | StatusFetch, Response ok => Some (checkLink_fetched (Some ok) w)
  | _, _ => None
  end.

(** One turn of the host's event loop. [None]: the event cannot happen
    in [w] (no such timer, no such pending promise). *)
Definition step (e : Event) (w : World) : option World :=
  match e with
  | Input newText => Some (flush_watch (text w) (set_text newText w))
  | SaveRequest => Some (handleSaveFile w)
  | TimerFires =>
      match timers w with
      | [] => None
      | _ :: rest => Some (checkLink (set_timers rest w))
      end
  | Settles k r =>
      match remove_first k (suspended w) with
      | None => None
      | Some rest => continue k r (set_suspended rest w)
      end
  end.

Fixpoint run (es : list Event) (w : World) : option World :=
  match es with
  | [] => Some w
  | e :: es' =>
      match step e w with
      | Some w' => run es' w'
      | None => None
      end
  end.

(** The component before it is mounted. *)
Definition pristine : World :=
  mkWorld [] None unlinked [] false [] [] [].

(** The two [onMounted] hooks: [await loadContent()], then
    [checkLink]. *)
Definition mounted : World := checkLink (loadContent FromMounted pristine).

(** The worlds the mounted component can be in. *)
Definition reachable (w : World) : Prop :=
  exists es, run es mounted = Some w.

(** Bookkeeping for the statements below. *)
Definition is_content_op (k : Suspended) : bool :=
  match k with
  | LoadFetch _ | LoadJson _ | SaveFetch | SaveJson => true
  | StatusFetch => false
  end.

(** Load and save operations in flight. *)
Definition in_flight (w : World) : nat :=
  List.length (List.filter is_content_op (suspended w)).

Definition is_poll_op (k : Suspended) : bool :=
  match k with
  | StatusFetch | LoadFetch FromCheckLink | LoadJson FromCheckLink => true
  | _ => false
  end.

(** Runs of [checkLink] that have not reached their [finally] yet. *)
Definition polls_running (w : World) : nat :=
  List.length (List.filter is_poll_op (suspended w)).

Definition is_content_fetch (e : Effect) : bool :=
  match e with
  | Fetch (GET API_CONTENT_URL) | Fetch (POST API_CONTENT_URL _) => true
  | _ => false
  end.

(** Requests sent to [/api/content] so far. *)
Definition content_requests (w : World) : nat :=
  List.length (List.filter is_content_fetch (effects w)).

Definition is_fetch (e : Effect) : bool :=
  match e with Fetch _ => true | _ => false end.

(** Network calls made so far. *)
Definition network_calls (w : World) : nat :=
  List.length (List.filter is_fetch (effects w)).

(** *** Predicates and scenarios of the statements below *)

(** What a response makes of the link: Linked(false) when the server
    reports the document persisted, Unlinked otherwise. *)
Definition link_of (data : Doc) : SaveState :=
  if data_saved data then linked false else unlinked.

(** [w] once the promise [k] has left the pending ones. *)
Definition settled (k : Suspended) (w : World) : World :=
  match remove_first k (suspended w) with
  | Some rest => set_suspended rest w
  | None => w
  end.

(** The guard flag says whether a load or save is in flight, and there
    is never more than one. *)
Definition guarded (w : World) : Prop :=
  in_flight w = if isLoading w then 1%nat else 0%nat.

(** One run of [checkLink] or one timer for the next, never both,
    never neither; every timer set for the fixed delay. *)
Definition ticking (w : World) : Prop :=
  (polls_running w + List.length (timers w) = 1)%nat /\
  Forall (fun ms => ms = CHECK_LINK_MS) (timers w).

(** Every POST sent so far carried [saved: false]. *)
Definition posts_unsaved (w : World) : Prop :=
  forall url body,
    In (Fetch (POST url body)) (effects w) -> data_saved body = false.

(** The dirty flag says whether the buffer differs from the
    snapshot. *)
Definition classified (w : World) : Prop :=
  forall d, saveState w = linked d ->
            d = negb (Js.eqb (text w) (lastSavedContent w)).

(** The world after the first load of the session returned
    [{content: "hello", title: "doc", saved: true}]. *)
Definition hello_doc : Doc :=
  mkDoc (Js.lit "hello") (Some (Js.lit "doc")) true.

Definition hello_loaded : World :=
  loadContent_parsed FromMounted (Some hello_doc)
    (set_suspended [StatusFetch] mounted).

(** The world in which the user, having loaded ["hello"] and typed
    ["!"], has asked for a save and the response is being parsed. *)
Definition saving_events : list Event :=
  [Settles (LoadFetch FromMounted) (Response true);
   Settles (LoadJson FromMounted) (Json hello_doc);
   Input (Js.lit "hello!");
   SaveRequest;
   Settles SaveFetch (Response true)].

Definition saving : World :=
  Eval vm_compute in
    match run saving_events mounted with
    | Some w => w
    | None => pristine
    end.

(** *** The status label and the leave guard *)

(** The computed [saveTip]: a sign (U+26A0, U+25CF, U+2713), a space and
    a word. *)
Definition saveTip (s : SaveState) : Js.str :=
  match s with
  | unlinked => 9888%N :: Js.lit " Unlinked"
  | linked true => 9679%N :: Js.lit " Modified"
  | linked false => 10003%N :: Js.lit " Saved"
  end.

(** A [beforeunload] event, as far as [confirmLeave] writes it. *)
Record Unload : Type := mkUnload {
  defaultPrevented : bool;
  returnValue : Js.str
}.

Definition confirmLeave (s : SaveState) (event : Unload) : Unload :=
  if negb (shouldWarnOnLeave s) then event
  else mkUnload true [].

(** A sequence of calls of [markDirty] and [markSaved]. *)
Inductive Mark : Type := ToDirty | ToSaved.

Definition mark (m : Mark) (s : SaveState) : SaveState :=
  match m with
  | ToDirty => markDirty s
  | ToSaved => markSaved s
  end.

Definition marks (ms : list Mark) (s : SaveState) : SaveState :=
  fold_left (fun acc m => mark m acc) ms s.

(** *** More bookkeeping *)

Definition is_alert (e : Effect) : bool :=
  match e with Alert _ => true | _ => false end.

(** Failure notices shown so far. *)
Definition alerts (w : World) : nat :=
  List.length (List.filter is_alert (effects w)).

Definition is_post (e : Effect) : bool :=
  match e with Fetch (POST _ _) => true | _ => false end.

(** Save requests sent so far. *)
Definition posts (w : World) : nat :=
  List.length (List.filter is_post (effects w)).

Definition is_save_op (k : Suspended) : bool :=
  match k with SaveFetch | SaveJson => true | _ => false end.

(** Saves in flight. *)
Definition saves_in_flight (w : World) : nat :=
  List.length (List.filter is_save_op (suspended w)).

(** Every failure notice shown answers a save request of its own, and
    reads as the one notice the source has. *)
Definition accounted (w : World) : Prop :=
  (alerts w + saves_in_flight w <= posts w)%nat /\
  forall msg, In (Alert msg) (effects w) -> msg = save_failure_notice.

(** The events of a poll that finds the document unchanged locally and
    reloads it, the user typing [a] and then [b] while it runs. *)
Definition poll_reload (a b : list Js.str) (data : Doc) : list Event :=
  Settles StatusFetch (Response true) ::
  map Input a ++
  Settles (LoadFetch FromCheckLink) (Response true) ::
  map Input b ++
  [Settles (LoadJson FromCheckLink) (Json data)].

(** The events of a save that succeeds, the user typing [a] and then
    [b] while it runs. *)
Definition save_cycle (a b : list Js.str) (data : Doc) : list Event :=
  SaveRequest ::
  map Input a ++
  Settles SaveFetch (Response true) ::
  map Input b ++
  [Settles SaveJson (Json data)].

(** *** One more scenario *)

(** The world in which, after the load of ["hello"], a poll has started
    a reload, the user has typed ["!"] meanwhile, and the reload's
    response is being parsed. *)
Definition reloading_events : list Event :=
  [Settles (LoadFetch FromMounted) (Response true);
   Settles (LoadJson FromMounted) (Json hello_doc);
   Settles StatusFetch (Response true);
   Input (Js.lit "hello!");
   Settles (LoadFetch FromCheckLink) (Response true)].

Definition reloading : World :=
  Eval vm_compute in
    match run reloading_events mounted with
    | Some w => w
    | None => pristine
    end.

End Web.

(** ** The standalone editors: export through a download link *)

Module Standalone.

(** [DEFAULT_TITLE]: the three code units U+65B0 U+6587 U+6863. *)
Definition DEFAULT_TITLE : Js.str := [26032; 25991; 26723]%N.

(** The character class of [purifyFilename]'s pattern: slash (written
    escaped in the source), colon, asterisk, question mark, double
    quote, less-than, greater-than and vertical bar. *)
Definition class_units : list N := [47; 58; 42; 63; 34; 60; 62; 124]%N.

Definition in_class (c : N) : bool := existsb (N.eqb c) class_units.

Definition underscore : N := 95%N.
Definition backslash : N := 92%N.

(** [raw.replace(/[...]/g, "_")] *)
Definition purifyFilename (raw : Js.str) : Js.str :=
  List.map (fun c => if in_class c then underscore else c) raw.

(** [a ?? b] *)
Definition nullish {A : Type} (a : option A) (b : A) : A :=
  match a with Some x => x | None => b end.

Record TitleOptions : Type := mkOptions {
  initial : option Js.str;
  fallback : option Js.str
}.

(** [requestTitle]: [input] is what [prompt] returns, [None] when the
    dialog is cancelled. *)
Definition requestTitle (options : TitleOptions) (title : option Js.str)
           (input : option Js.str) : option Js.str :=
  let placeholder := nullish (initial options) (nullish title DEFAULT_TITLE) in
  match input with
  | None => None
  | Some typed =>
      let trimmed := Js.trim typed in
      let finalValue :=
        if (0 <? List.length trimmed)%nat then trimmed
        else nullish (fallback options) placeholder in
      Some (purifyFilename finalValue)
  end.

Record Session : Type := mkSession {
  text : option Js.str;
  title : option Js.str;
  hasInit : bool
}.

Definition start : Session := mkSession None None false.

Definition handleChangedTitle (input : option Js.str) (s : Session)
  : Session :=
  match requestTitle (mkOptions (Some (nullish (title s) DEFAULT_TITLE))
                                (Some DEFAULT_TITLE))
                     (title s) input with
  | Some value => mkSession (text s) (Some value) (hasInit s)
  | None => s
  end.

Definition initWithDefaultFile (input : option Js.str) (s : Session)
  : Session :=
  match requestTitle (mkOptions (Some DEFAULT_TITLE) (Some DEFAULT_TITLE))
                     (title s) input with
  | Some result => mkSession (Some []) (Some result) true
  | None => s
  end.

(** Does the pattern of [initWithFile], a dot followed to the end of
    the input by one or more units that are neither slash nor dot,
    match the whole of [s]? *)
Definition is_extension (s : Js.str) : bool :=
  match s with
  | 46%N :: rest =>
      (0 <? List.length rest)%nat
      && forallb (fun c => negb (N.eqb c 47 || N.eqb c 46)) rest
  | _ => false
  end.

(** [file.name.replace(pattern, empty)]: the leftmost suffix the
    pattern matches is removed. *)
Fixpoint dropExtension (name : Js.str) : Js.str :=
  match name with
  | [] => []
  | c :: name' => if is_extension name then [] else c :: dropExtension name'
  end.

(** [reader.onload] of [initWithFile] (of [initWithCustomFile] in the
    older variant): [contents] is what the reader decoded, [None] when
    its result is not a string. *)
Definition initWithFile (name : Js.str) (contents : option Js.str)
           (s : Session) : Session :=
  let rawName := dropExtension name in
  let trimmedName := Js.trim rawName in
  let normalized :=
    if (0 <? List.length trimmedName)%nat then trimmedName
    else DEFAULT_TITLE in
  mkSession (Some (nullish contents [])) (Some (purifyFilename normalized))
            true.

(** The computed [downloadFilename]. *)
Definition downloadFilename (s : Session) : Js.str :=
  let safe :=
    match option_map Js.trim (title s) with
    | Some trimmed =>
        if (0 <? List.length trimmed)%nat then trimmed else DEFAULT_TITLE
    | None => DEFAULT_TITLE
    end in
  safe ++ Js.lit ".txt".

(** The file name without its [.txt] suffix. *)
Definition downloadStem (s : Session) : Js.str :=
  firstn (List.length (downloadFilename s) - 4) (downloadFilename s).

Record Download : Type := mkDownload {
  download : Js.str;     (* the anchor's [download] attribute *)
  payload : Js.str       (* the blob's content *)
}.

(** [handleSaveFile]: the artifact handed to the browser, if any. *)
Definition handleSaveFile (s : Session) : option Download :=
  if negb (hasInit s) then None
  else Some (mkDownload (downloadFilename s) (nullish (text s) [])).

(** What the user can do to the title and the buffer. *)
Inductive Event : Type :=
| ChangeTitle (input : option Js.str)
| EnterDirectly (input : option Js.str)
| FileRead (name : Js.str) (contents : option Js.str)
| Typing (newText : Js.str).

Definition step (e : Event) (s : Session) : Session :=
  match e with
  | ChangeTitle input => handleChangedTitle input s
  | EnterDirectly input => initWithDefaultFile input s
  | FileRead name contents => initWithFile name contents s
  | Typing newText => mkSession (Some newText) (title s) (hasInit s)
  end.

Definition run (es : list Event) (s : Session) : Session :=
  fold_left (fun acc e => step e acc) es s.

(** *** Predicates of the statements below *)

(** A title is clean when no unit of it is in the class. *)
Definition clean (t : Js.str) : Prop :=
  forall c, In c t -> in_class c = false.

Definition clean_title (s : Session) : Prop :=
  match title s with Some t => clean t | None => True end.

(** *** The counter, the window title and the leave guard *)

(** The computed [wordCount]: the buffer without the units the pattern
    [\s] matches (those of [Js.isWhite]), counted; nothing for a buffer
    that is absent or empty. *)
Definition wordCount (s : Session) : nat :=
  match text s with
  | None => 0
  | Some t => List.length (List.filter (fun c => negb (Js.isWhite c)) t)
  end.

(** The computed [displayTitle]: [title.value?.trim() || DEFAULT_TITLE]. *)
Definition displayTitle (s : Session) : Js.str :=
  match option_map Js.trim (title s) with
  | Some [] => DEFAULT_TITLE
  | Some trimmed => trimmed
  | None => DEFAULT_TITLE
  end.

(** [confirmLeave]: is the default action of [beforeunload] prevented? *)
Definition confirmLeave (s : Session) : bool := hasInit s.

(** *** More predicates *)

(** A title as the editor keeps it: not empty, nothing for [trim] to
    remove, no unit of the class. *)
Definition normal (t : Js.str) : Prop :=
  t <> [] /\ Js.trim t = t /\ clean t.

(** Nothing, or a unit that is not white space, comes first. *)
Definition headed (u : Js.str) : Prop :=
  match u with
  | [] => True
  | c :: _ => Js.isWhite c = false
  end.

(** A string with neither dot nor slash. *)
Definition plain (t : Js.str) : Prop :=
  forall c, In c t -> c <> 46%N /\ c <> 47%N.

(** A string of white space only. *)
Definition blank (t : Js.str) : Prop :=
  forall c, In c t -> Js.isWhite c = true.

(** Once the editor is entered there is a title and a buffer. *)
Definition entered (s : Session) : Prop :=
  hasInit s = true ->
  (exists t, title s = Some t) /\ (exists txt, text s = Some txt).

(** The session with [t] in the buffer. *)
Definition holding (t : Js.str) (s : Session) : Session :=
  step (Typing t) s.

End Standalone.

(** ** Page height and zoom (the same text in every variant) *)

Module Geometry.

(** *** Numbers *)

(** [Math.max(a, b)]: NaN if either is; of the two zeros, the positive
    one. *)
Definition Math_max (a b : float) : float :=
  if (PrimFloat.is_nan a || PrimFloat.is_nan b)%bool then nan
  else if PrimFloat.ltb a b then b
  else if PrimFloat.ltb b a then a
  else if PrimFloat.get_sign a then b else a.

(** [Math.min(a, b)]: NaN if either is; of the two zeros, the negative
    one. *)
Definition Math_min (a b : float) : float :=
  if (PrimFloat.is_nan a || PrimFloat.is_nan b)%bool then nan
  else if PrimFloat.ltb a b then a
  else if PrimFloat.ltb b a then b
  else if PrimFloat.get_sign a then a else b.

(** The integer [n] for which [n / 100] is closest to [m * 2^e]; of two
    such, the larger (as [Number.prototype.toFixed] chooses it). *)
Definition hundredths (m : positive) (e : Z) : Z :=
  (200 * Z.pos m * 2 ^ Z.max e 0 + 2 ^ Z.max (- e) 0)
  / (2 * 2 ^ Z.max (- e) 0).

(** Is [m * 2^e] at least [10^21]? *)
Definition huge (m : positive) (e : Z) : bool :=
  (10 ^ 21 * 2 ^ Z.max (- e) 0 <=? Z.pos m * 2 ^ Z.max e 0)%Z.

(** What [Number] reads from the digits of [n] with the point before
    the last two, and a minus sign if [s]: the binary64 number nearest to
    [n / 100], that is the quotient rounded once. *)
Definition decimal2 (s : bool) (n : positive) : float :=
  SF2Prim (SFdiv prec emax (S754_finite s n 0) (S754_finite false 100 0)).

(** [Number(x.toFixed(2))]. [toFixed] prints the digits of
    [hundredths] with the sign of [x] (below [10^21]; from there on it
    prints as [String(x)] does, which [Number] reads back as [x]). *)
Definition Number_toFixed2 (x : float) : float :=
  match Prim2SF x with
  | S754_nan => nan
  | S754_infinity _ => x
  | S754_zero _ => 0%float
  | S754_finite s m e =>
      if huge m e then x
      else
        match hundredths m e with
        | Z.pos n => decimal2 s n
        | _ => if s then (-0)%float else 0%float
        end
  end.

(** The number a finite binary64 value of mantissa [m] and exponent [e]
    stands for: [m * 2^e]. *)
Definition exact (m : positive) (e : Z) : Q :=
  (inject_Z (Z.pos m) * Qpower 2 e)%Q.

(** [n] hundredths is the number [q] rounded to two decimals: no
    multiple of 0.01 is nearer to [q] than [n / 100], and of two that
    are equally near [n / 100] is the larger. *)
Definition nearest_hundredths (q : Q) (n : Z) : Prop :=
  (inject_Z n - (1 # 2) <= 100 * q /\ 100 * q < inject_Z n + (1 # 2))%Q.

(** The binary64 number [x] is positive and within half a unit in its
    last place of the number [q]: reading [q] as a binary64 number
    gives [x]. *)
Definition within_half_ulp (q : Q) (x : float) : Prop :=
  exists m e,
    Prim2SF x = S754_finite false m e /\
    (Qabs (exact m e - q) <= (1 # 2) * Qpower 2 e)%Q.

(** *** Zoom *)

Definition changeZoomLevel (delta : float) (zoomLevel : float) : float :=
  Number_toFixed2
    (Math_max 0.5%float (Math_min 3%float (zoomLevel + delta)%float)).

(** [handleCtrlWheel], given [e.deltaY]. *)
Definition handleCtrlWheel (deltaY : float) (zoomLevel : float) : float :=
  let delta :=
    if PrimFloat.ltb 0%float deltaY then (-0.25)%float else 0.25%float in
  changeZoomLevel delta zoomLevel.

Definition resetZoomLevel (_ : float) : float := 1%float.

(** *** Page height *)

(** [HEIGHT]: an A4 page at 96 dpi, in pixels. *)
Definition HEIGHT : Z := 1123.

(** The textarea, as [syncPageHeight] reads and writes it. *)
Record Page : Type := mkPage {
  naturalHeight : Z;        (* its [scrollHeight] while [style.height] is auto *)
  style_height : option Z   (* [None]: auto; [Some h]: h pixels *)
}.

Record View : Type := mkView {
  pageRef : option Page;
  scrollWrapperRef : option Z;   (* the wrapper's [scrollTop] *)
  pageHeightPx : Z;
  zoomLevel : float
}.

Definition syncPageHeight (v : View) : View :=
  match pageRef v with
  | None => v
  | Some page =>
      let previousScrollTop := match scrollWrapperRef v with
                               | Some top => top
                               | None => 0%Z
                               end in
      let height := Z.max (naturalHeight page) HEIGHT in
      mkView (Some (mkPage (naturalHeight page) (Some height)))
             (option_map (fun _ => previousScrollTop) (scrollWrapperRef v))
             height
             (zoomLevel v)
  end.

(** The view of a session whose template has not rendered yet. *)
Definition unrendered : View := mkView None None HEIGHT 1%float.

Inductive Event : Type :=
| Render (natural : Z)
    (* the textarea and its wrapper appear, or the content is laid out
       again, with [natural] as its height; [syncPageHeight] follows *)
| Scroll (scrollTop : Z)
| ZoomIn                      (* click on +: [changeZoomLevel(0.25)] *)
| ZoomOut                     (* click on -: [changeZoomLevel(-0.25)] *)
| CtrlWheel (deltaY : float)
| ZoomReset.

Definition with_zoom (z : float) (v : View) : View :=
  mkView (pageRef v) (scrollWrapperRef v) (pageHeightPx v) z.

Definition step (e : Event) (v : View) : View :=
  match e with
  | Render natural =>
      syncPageHeight
        (mkView (Some (mkPage natural
                              (match pageRef v with
                               | Some page => style_height page
                               | None => None
                               end)))
                (Some (match scrollWrapperRef v with
                       | Some top => top
                       | None => 0%Z
                       end))
                (pageHeightPx v) (zoomLevel v))
  | Scroll top =>
      mkView (pageRef v) (option_map (fun _ => top) (scrollWrapperRef v))
             (pageHeightPx v) (zoomLevel v)
  | ZoomIn => with_zoom (changeZoomLevel 0.25%float (zoomLevel v)) v
  | ZoomOut => with_zoom (changeZoomLevel (-0.25)%float (zoomLevel v)) v
  | CtrlWheel deltaY => with_zoom (handleCtrlWheel deltaY (zoomLevel v)) v
  | ZoomReset => with_zoom (resetZoomLevel (zoomLevel v)) v
  end.

Definition run (es : list Event) (v : View) : View :=
  fold_left (fun acc e => step e acc) es v.

(** The zoom levels between the two bounds, a quarter apart. *)
Definition zoom_grid : list float :=
  [0.5; 0.75; 1; 1.25; 1.5; 1.75; 2; 2.25; 2.5; 2.75; 3]%float.

(** *** The zoom indicator *)

(** [Math.round(x)]: the integer nearest to [x], the larger of two; a
    zero result keeps the sign of [x]. *)
Definition Math_round (x : float) : float :=
  match Prim2SF x with
  | S754_finite s m e =>
      if (0 <=? e)%Z then x
      else
        match ((cond_Zopp s (2 * Z.pos m) + 2 ^ (- e)) / 2 ^ (1 - e))%Z with
        | Z0 => if s then (-0)%float else 0%float
        | n => SF2Prim (binary_normalize prec emax n 0 false)
        end
  | _ => x
  end.

(** The template's [Math.round(zoomLevel * 100)], shown before the
    percent sign. *)
Definition zoomIndicator (zoomLevel : float) : float :=
  Math_round (zoomLevel * 100)%float.

(** The indicator at each level of [zoom_grid]. *)
Definition percent_grid : list float :=
  [50; 75; 100; 125; 150; 175; 200; 225; 250; 275; 300]%float.

End Geometry.

(* ================================================================== *)
(** * Part II: properties                                              *)
(* ================================================================== *)

(** ** Strings *)

Lemma Js_eqb_eq (a b : Js.str) : Js.eqb a b = true <-> a = b.
Proof.
  revert b; induction a as [|x a IH]; intros [|y b]; simpl;
    try (split; [discriminate | discriminate]); try tauto.
  rewrite andb_true_iff, N.eqb_eq, IH.
  split; [intros [-> ->]; reflexivity | intros H; injection H; auto].
Qed.

Lemma Js_eqb_refl (a : Js.str) : Js.eqb a a = true.
Proof. apply Js_eqb_eq; reflexivity. Qed.

Lemma Js_eqb_neq (a b : Js.str) : Js.eqb a b = false <-> a <> b.
Proof.
  rewrite <- Js_eqb_eq. destruct (Js.eqb a b); split; congruence.
Qed.

(** ** The networked editor *)

Section WebFacts.

Import Web.

(** *** The link state machine *)

Lemma markDirty_unlinked : markDirty unlinked = unlinked.
Proof. reflexivity. Qed.

Lemma markSaved_unlinked : markSaved unlinked = unlinked.
Proof. reflexivity. Qed.

Lemma isDirty_linked_only (s : SaveState) :
  isDirty s = true <-> s = linked true.
Proof. destruct s as [|[|]]; simpl; split; congruence. Qed.

Lemma shouldWarnOnLeave_spec (s : SaveState) :
  shouldWarnOnLeave s = negb (isLinked s) || isDirty s.
Proof. destruct s as [|[|]]; reflexivity. Qed.

(** *** The watcher *)

Lemma watch_text_linked (w : World) (d : bool) (newText : Js.str) :
  saveState w = linked d ->
  watch_text newText w =
  set_saveState (linked (negb (Js.eqb newText (lastSavedContent w)))) w.
Proof.
  intros H. unfold watch_text. rewrite H. simpl.
  destruct (Js.eqb newText (lastSavedContent w)); reflexivity.
Qed.

Lemma watch_text_unlinked (w : World) (newText : Js.str) :
  saveState w = unlinked -> watch_text newText w = w.
Proof. intros H. unfold watch_text. rewrite H. reflexivity. Qed.

(** The watcher touches nothing but the link state. *)
Lemma flush_watch_frame (old : Js.str) (w : World) :
  text (flush_watch old w) = text w /\
  title (flush_watch old w) = title w /\
  lastSavedContent (flush_watch old w) = lastSavedContent w /\
  isLoading (flush_watch old w) = isLoading w /\
  suspended (flush_watch old w) = suspended w /\
  timers (flush_watch old w) = timers w /\
  effects (flush_watch old w) = effects w.
Proof.
  unfold flush_watch, watch_text.
  destruct (Js.eqb (text w) old); [tauto|].
  destruct (negb (isLinked (saveState w))); [tauto|].
  destruct (Js.eqb (text w) (lastSavedContent w)); simpl; tauto.
Qed.

(** Once the buffer and the snapshot agree and the state is clean or
    unlinked, the watcher has nothing to change. *)
Lemma flush_watch_settled (old : Js.str) (w : World) :
  text w = lastSavedContent w ->
  saveState w <> linked true ->
  flush_watch old w = w.
Proof.
  intros Heq Hs. unfold flush_watch, watch_text.
  destruct (Js.eqb (text w) old); [reflexivity|].
  destruct (saveState w) as [|[|]] eqn:E; simpl; try reflexivity.
  - congruence.
  - rewrite Heq, Js_eqb_refl. destruct w; simpl in *; subst; reflexivity.
Qed.

(** *** Pending promises *)

Lemma Suspended_eqb_eq (a b : Suspended) : Suspended_eqb a b = true <-> a = b.
Proof.
  destruct a as [[|]|[|]| | |], b as [[|]|[|]| | |]; simpl;
    split; congruence.
Qed.

Lemma remove_first_In (k : Suspended) (l : list Suspended) :
  In k l -> exists rest, remove_first k l = Some rest.
Proof.
  induction l as [|x l IH]; simpl; [tauto|].
  intros [->|H].
  - exists l. rewrite (proj2 (Suspended_eqb_eq k k) eq_refl). reflexivity.
  - destruct (Suspended_eqb k x); [eauto|].
    destruct (IH H) as [rest ->]. simpl. eauto.
Qed.

Lemma remove_first_count (p : Suspended -> bool) (k : Suspended)
      (l rest : list Suspended) :
  remove_first k l = Some rest ->
  List.length (filter p l) =
  ((if p k then 1 else 0) + List.length (filter p rest))%nat.
Proof.
  revert rest; induction l as [|x l IH]; simpl; intros rest H;
    [discriminate|].
  destruct (Suspended_eqb k x) eqn:E.
  - apply Suspended_eqb_eq in E. subst x. injection H as <-.
    destruct (p k); simpl; lia.
  - destruct (remove_first k l) as [rest'|]; [|discriminate].
    simpl in H. injection H as <-. simpl.
    specialize (IH rest' eq_refl).
    destruct (p x); simpl; lia.
Qed.

End WebFacts.

Section LinkState.

Import Web.

Lemma hello_loaded_reachable :
  run [Settles (LoadFetch FromMounted) (Response true);
       Settles (LoadJson FromMounted) (Json hello_doc)] mounted
  = Some hello_loaded.
Proof. reflexivity. Qed.

(** C1. While the link state is Linked, a change of the buffer sets the
    state by comparing the new content with the last-saved snapshot:
    Linked(true) exactly when they differ, Linked(false) exactly when
    they are equal; the snapshot, the pending promises and the effects
    (so the network) are untouched. *)
Theorem text_change_reclassifies
        (w : World) (d : bool) (newText : Js.str) :
  saveState w = linked d ->
  newText <> text w ->
  exists w',
    step (Input newText) w = Some w' /\
    text w' = newText /\
    (saveState w' = linked true <-> newText <> lastSavedContent w) /\
    (saveState w' = linked false <-> newText = lastSavedContent w) /\
    lastSavedContent w' = lastSavedContent w /\
    suspended w' = suspended w /\
    effects w' = effects w.
Proof.
  intros Hs Hne. eexists. split; [reflexivity|].
  unfold flush_watch. simpl.
  destruct (Js.eqb newText (text w)) eqn:E.
  { apply Js_eqb_eq in E. contradiction. }
  rewrite watch_text_linked with (d := d) by exact Hs. simpl.
  repeat split; try reflexivity.
  - intros H. apply Js_eqb_neq.
    destruct (Js.eqb newText (lastSavedContent w)); simpl in H; congruence.
  - intros H. apply Js_eqb_neq in H. rewrite H. reflexivity.
  - intros H. apply Js_eqb_eq.
    destruct (Js.eqb newText (lastSavedContent w)); simpl in H; congruence.
  - intros H. apply Js_eqb_eq in H. rewrite H. reflexivity.
Qed.

(** The scenario: after the load of ["hello"] with [saved: true]
    the state is Linked(false); typing ["!"] makes it Linked(true);
    deleting the ["!"] makes it Linked(false) again, and no request was
    sent in between. *)
Lemma text_change_reclassifies_witness :
  saveState hello_loaded = linked false /\
  text hello_loaded = Js.lit "hello" /\
  exists typed deleted,
    step (Input (Js.lit "hello!")) hello_loaded = Some typed /\
    text typed = Js.lit "hello!" /\
    saveState typed = linked true /\
    step (Input (Js.lit "hello")) typed = Some deleted /\
    text deleted = Js.lit "hello" /\
    saveState deleted = linked false /\
    network_calls deleted = network_calls hello_loaded.
Proof.
  split; [reflexivity|]. split; [reflexivity|].
  destruct (text_change_reclassifies hello_loaded false (Js.lit "hello!"))
    as (typed & Hstep & Htext & Hdirty & _ & Hsnap & _ & Heff);
    [reflexivity | vm_compute; discriminate |].
  assert (Hst : saveState typed = linked true).
  { apply Hdirty. vm_compute. discriminate. }
  destruct (text_change_reclassifies typed true (Js.lit "hello"))
    as (deleted & Hstep' & Htext' & _ & Hclean & _ & _ & Heff');
    [exact Hst | rewrite Htext; vm_compute; discriminate |].
  exists typed, deleted.
  repeat split; try assumption.
  - apply Hclean. rewrite Hsnap. reflexivity.
  - unfold network_calls. rewrite Heff', Heff. reflexivity.
Defined.

End LinkState.

Section LoadAndSave.

Import Web.

Lemma adopt_load_fields (data : Doc) (w : World) :
  text (adopt_load data w) = data_content data /\
  title (adopt_load data w) = data_title data /\
  lastSavedContent (adopt_load data w) = data_content data /\
  saveState (adopt_load data w) = link_of data /\
  isLoading (adopt_load data w) = isLoading w /\
  suspended (adopt_load data w) = suspended w /\
  timers (adopt_load data w) = timers w /\
  effects (adopt_load data w) = effects w.
Proof.
  unfold adopt_load, link_of. destruct (data_saved data); simpl; tauto.
Qed.

Lemma adopt_save_fields (data : Doc) (w : World) :
  text (adopt_save data w) = data_content data /\
  title (adopt_save data w) = data_title data /\
  lastSavedContent (adopt_save data w) = data_content data /\
  saveState (adopt_save data w) = link_of data /\
  isLoading (adopt_save data w) = isLoading w /\
  suspended (adopt_save data w) = suspended w /\
  timers (adopt_save data w) = timers w /\
  effects (adopt_save data w) = effects w.
Proof.
  unfold adopt_save, link_of. destruct (data_saved data); simpl; tauto.
Qed.

Lemma link_of_not_dirty (data : Doc) : link_of data <> linked true.
Proof. unfold link_of. destruct (data_saved data); discriminate. Qed.

(** After the assignments of a successful load or save the watcher, if
    it runs at all, finds the buffer equal to the snapshot. *)
Lemma loadContent_parsed_flush (data : Doc) (w : World) :
  flush_watch (text w) (set_isLoading false (adopt_load data w))
  = set_isLoading false (adopt_load data w).
Proof.
  destruct (adopt_load_fields data w) as (Ht & _ & Hl & Hs & _).
  apply flush_watch_settled; simpl.
  - congruence.
  - rewrite Hs. apply link_of_not_dirty.
Qed.

Lemma handleSaveFile_parsed_flush (data : Doc) (w : World) :
  flush_watch (text w) (set_isLoading false (adopt_save data w))
  = set_isLoading false (adopt_save data w).
Proof.
  destruct (adopt_save_fields data w) as (Ht & _ & Hl & Hs & _).
  apply flush_watch_settled; simpl.
  - congruence.
  - rewrite Hs. apply link_of_not_dirty.
Qed.

(** [resume] only sets the next timer. *)
Lemma resume_frame (c : Caller) (w : World) :
  text (resume c w) = text w /\
  title (resume c w) = title w /\
  saveState (resume c w) = saveState w /\
  lastSavedContent (resume c w) = lastSavedContent w /\
  isLoading (resume c w) = isLoading w /\
  suspended (resume c w) = suspended w.
Proof. destruct c; simpl; tauto. Qed.

(** The failure path of [loadContent]. *)
Lemma loadContent_catch_fields (c : Caller) (w : World) :
  saveState (loadContent_catch c w) = unlinked /\
  text (loadContent_catch c w) = text w /\
  title (loadContent_catch c w) = title w /\
  lastSavedContent (loadContent_catch c w) = lastSavedContent w /\
  isLoading (loadContent_catch c w) = false.
Proof. destruct c; simpl; tauto. Qed.

(** The failure path of [handleSaveFile]. *)
Lemma handleSaveFile_catch_fields (w : World) :
  saveState (handleSaveFile_catch w) = unlinked /\
  effects (handleSaveFile_catch w) = Alert save_failure_notice :: effects w /\
  text (handleSaveFile_catch w) = text w /\
  title (handleSaveFile_catch w) = title w /\
  lastSavedContent (handleSaveFile_catch w) = lastSavedContent w /\
  isLoading (handleSaveFile_catch w) = false.
Proof. simpl; tauto. Qed.

(** C2. A call of [loadContent] that is not skipped sends its request
    and waits; it then ends in one of these ways. When the response is a
    success and parses to [data]: the buffer and the snapshot are
    [data.content], the title is [data.title], and the state is
    Linked(false) if [data.saved], Unlinked otherwise. When [fetch]
    rejects, the status is not a success, or the body does not parse:
    the state is Unlinked and buffer and title are as they were. *)
Theorem loadContent_outcomes (c : Caller) (w : World) :
  (isLoading w = false ->
   In (LoadFetch c) (suspended (loadContent c w)) /\
   effects (loadContent c w) = Fetch (GET API_CONTENT_URL) :: effects w) /\
  (In (LoadFetch c) (suspended w) ->
   (exists w',
      step (Settles (LoadFetch c) (Response true)) w = Some w' /\
      In (LoadJson c) (suspended w') /\
      text w' = text w /\ title w' = title w /\
      saveState w' = saveState w) /\
   (forall r, r = Rejects \/ r = Response false ->
      exists w',
        step (Settles (LoadFetch c) r) w = Some w' /\
        saveState w' = unlinked /\
        text w' = text w /\ title w' = title w)) /\
  (In (LoadJson c) (suspended w) ->
   (forall data,
      exists w',
        step (Settles (LoadJson c) (Json data)) w = Some w' /\
        text w' = data_content data /\
        title w' = data_title data /\
        lastSavedContent w' = data_content data /\
        saveState w' = (if data_saved data then linked false else unlinked)) /\
   (exists w',
      step (Settles (LoadJson c) Rejects) w = Some w' /\
      saveState w' = unlinked /\
      text w' = text w /\ title w' = title w)).
Proof.
  split.
  { intros L. unfold loadContent. rewrite L. simpl. auto. }
  split; intros Hin; destruct (remove_first_In _ _ Hin) as [rest Hrest].
  - split.
    + eexists. split; [unfold step; rewrite Hrest; reflexivity|].
      simpl. auto.
    + intros r [-> | ->];
        (eexists; split; [unfold step; rewrite Hrest; reflexivity|]);
        destruct (loadContent_catch_fields c (set_suspended rest w))
          as (Hs & Ht & Hti & _);
        unfold loadContent_fetched; rewrite Hs, Ht, Hti; auto.
  - split.
    + intros data.
      eexists. split; [unfold step; rewrite Hrest; reflexivity|].
      unfold loadContent_parsed.
      rewrite (loadContent_parsed_flush data (set_suspended rest w)).
      destruct (resume_frame c
                  (set_isLoading false
                     (adopt_load data (set_suspended rest w))))
        as (Ht & Hti & Hs & Hl & _).
      rewrite Ht, Hti, Hs, Hl. simpl.
      destruct (adopt_load_fields data (set_suspended rest w))
        as (Ht' & Hti' & Hl' & Hs' & _).
      rewrite Ht', Hti', Hl', Hs'. auto.
    + eexists. split; [unfold step; rewrite Hrest; reflexivity|].
      destruct (loadContent_catch_fields c (set_suspended rest w))
        as (Hs & Ht & Hti & _).
      unfold loadContent_parsed. rewrite Hs, Ht, Hti. auto.
Qed.

(** A load in flight at each of its two awaits: [mounted], and
    [mounted] once the response has arrived. *)
Lemma loadContent_outcomes_witness :
  In (LoadFetch FromMounted) (suspended mounted) /\
  (exists w',
     step (Settles (LoadFetch FromMounted) Rejects) mounted = Some w' /\
     saveState w' = unlinked /\
     text w' = text mounted /\ title w' = title mounted) /\
  In (LoadJson FromMounted)
     (suspended (loadContent_fetched FromMounted (Some true) mounted)) /\
  (exists w',
     step (Settles (LoadJson FromMounted) (Json hello_doc))
          (loadContent_fetched FromMounted (Some true) mounted) = Some w' /\
     text w' = Js.lit "hello" /\
     title w' = Some (Js.lit "doc") /\
     lastSavedContent w' = Js.lit "hello" /\
     saveState w' = linked false).
Proof.
  split; [simpl; auto|]. split.
  - apply (proj1 (proj2 (loadContent_outcomes FromMounted mounted)));
      [simpl; auto | left; reflexivity].
  - split; [simpl; auto|].
    apply (proj1 (proj2 (proj2 (loadContent_outcomes FromMounted
                                  (loadContent_fetched FromMounted
                                                       (Some true) mounted)))
                        (or_introl eq_refl))
                 hello_doc).
Defined.

(** C3. A [handleSaveFile] in flight that fails ([fetch] rejects, the
    status is not a success, or the body does not parse) leaves the
    state Unlinked whatever it was, raises the failure notice, and
    keeps buffer, title and snapshot as they were. *)
Theorem handleSaveFile_failure (w : World) :
  (In SaveFetch (suspended w) ->
   forall r, r = Rejects \/ r = Response false ->
     exists w',
       step (Settles SaveFetch r) w = Some w' /\
       saveState w' = unlinked /\
       effects w' = Alert save_failure_notice :: effects w /\
       text w' = text w /\ title w' = title w /\
       lastSavedContent w' = lastSavedContent w) /\
  (In SaveJson (suspended w) ->
   exists w',
     step (Settles SaveJson Rejects) w = Some w' /\
     saveState w' = unlinked /\
     effects w' = Alert save_failure_notice :: effects w /\
     text w' = text w /\ title w' = title w /\
     lastSavedContent w' = lastSavedContent w).
Proof.
  split; intros Hin; destruct (remove_first_In _ _ Hin) as [rest Hrest].
  - intros r [-> | ->];
      (eexists; split; [unfold step; rewrite Hrest; reflexivity|]);
      simpl; auto 10.
  - eexists; split; [unfold step; rewrite Hrest; reflexivity|].
    simpl; auto 10.
Qed.

(** A save requested in each link state the editor can be in, whose
    request is then refused. *)
Lemma handleSaveFile_failure_witness :
  Forall
    (fun s : SaveState =>
       let w := handleSaveFile (set_saveState s hello_loaded) in
       In SaveFetch (suspended w) /\
       exists w',
         step (Settles SaveFetch (Response false)) w = Some w' /\
         saveState w' = unlinked /\
         effects w' = Alert save_failure_notice :: effects w /\
         text w' = text w /\ title w' = title w /\
         lastSavedContent w' = lastSavedContent w)
    [unlinked; linked false; linked true].
Proof.
  apply Forall_cons; [|apply Forall_cons; [|apply Forall_cons; [|apply Forall_nil]]];
    (split;
     [ simpl; auto
     | apply (proj1 (handleSaveFile_failure _));
       [simpl; auto | right; reflexivity] ]).
Defined.

End LoadAndSave.

Section Polling.

Import Web.

Lemma settled_frame (k : Suspended) (w : World) :
  text (settled k w) = text w /\
  title (settled k w) = title w /\
  saveState (settled k w) = saveState w /\
  lastSavedContent (settled k w) = lastSavedContent w /\
  isLoading (settled k w) = isLoading w /\
  timers (settled k w) = timers w /\
  effects (settled k w) = effects w.
Proof.
  unfold settled. destruct (remove_first k (suspended w)); simpl; tauto.
Qed.

Lemma step_Settles (k : Suspended) (r : Settlement) (w : World) :
  In k (suspended w) ->
  step (Settles k r) w = continue k r (settled k w).
Proof.
  intros Hin. destruct (remove_first_In _ _ Hin) as [rest Hrest].
  unfold step, settled. rewrite Hrest. reflexivity.
Qed.

Lemma content_requests_loadContent (c : Caller) (w : World) :
  content_requests (loadContent c w) =
  (if isLoading w then content_requests w else S (content_requests w)).
Proof.
  unfold loadContent. destruct (isLoading w); [|reflexivity].
  destruct c; reflexivity.
Qed.

(** C4. When the status request of a [checkLink] comes back a success:
    if the state is Linked(false), [loadContent] is called (and sends
    its request unless a load or save is in flight); in any other
    state nothing is called: buffer, title, snapshot and state stay as
    they are and no request is sent. When the status request fails,
    the state becomes Unlinked. *)
Theorem checkLink_outcomes (w : World) :
  In StatusFetch (suspended w) ->
  (exists w',
     step (Settles StatusFetch (Response true)) w = Some w' /\
     (saveState w = linked false ->
        w' = loadContent FromCheckLink (settled StatusFetch w)) /\
     (saveState w <> linked false ->
        w' = setTimeout_checkLink CHECK_LINK_MS (settled StatusFetch w) /\
        saveState w' = saveState w /\
        lastSavedContent w' = lastSavedContent w /\
        network_calls w' = network_calls w) /\
     (content_requests w' = S (content_requests w) <->
        saveState w = linked false /\ isLoading w = false) /\
     text w' = text w /\ title w' = title w) /\
  (forall r, r = Rejects \/ r = Response false ->
     exists w',
       step (Settles StatusFetch r) w = Some w' /\
       saveState w' = unlinked /\
       text w' = text w /\ title w' = title w /\
       network_calls w' = network_calls w).
Proof.
  intros Hin.
  destruct (settled_frame StatusFetch w)
    as (Ht & Hti & Hs & Hl & Hload & _ & He).
  split.
  - eexists. split; [rewrite step_Settles by exact Hin; reflexivity|].
    unfold checkLink_fetched. rewrite Hs.
    assert (Hn : forall x,
               network_calls (setTimeout_checkLink CHECK_LINK_MS x)
               = network_calls x) by reflexivity.
    assert (Hc : forall x,
               content_requests (setTimeout_checkLink CHECK_LINK_MS x)
               = content_requests x) by reflexivity.
    assert (Hn0 : network_calls (settled StatusFetch w) = network_calls w)
      by (unfold network_calls; rewrite He; reflexivity).
    assert (Hc0 : content_requests (settled StatusFetch w)
                  = content_requests w)
      by (unfold content_requests; rewrite He; reflexivity).
    destruct (saveState w) as [|[|]] eqn:E.
    + split; [discriminate|]. split; [|split; [|split]].
      * intros _. rewrite Hn, Hn0. simpl. auto.
      * rewrite Hc, Hc0. split; [lia | intros [H _]; discriminate].
      * simpl. exact Ht.
      * simpl. exact Hti.
    + split; [discriminate|]. split; [|split; [|split]].
      * intros _. rewrite Hn, Hn0. simpl. auto.
      * rewrite Hc, Hc0. split; [lia | intros [H _]; discriminate].
      * simpl. exact Ht.
      * simpl. exact Hti.
    + split; [reflexivity|]. split; [congruence|]. split; [|split].
      * rewrite content_requests_loadContent, Hload, Hc0.
        destruct (isLoading w); split; try lia; auto.
      * unfold loadContent. rewrite Hload.
        destruct (isLoading w); simpl; exact Ht.
      * unfold loadContent. rewrite Hload.
        destruct (isLoading w); simpl; exact Hti.
  - intros r [-> | ->];
      (eexists; split; [rewrite step_Settles by exact Hin; reflexivity|]);
      unfold checkLink_fetched; simpl;
      unfold network_calls; simpl; rewrite He; auto.
Qed.

(** The two scenarios of C4, from the world left by the load of
    ["hello"], where the first [checkLink] is still waiting: clean, the
    poll calls [loadContent]; after an edit, it leaves the buffer
    alone. *)
Lemma checkLink_outcomes_witness :
  (exists w',
     step (Settles StatusFetch (Response true)) hello_loaded = Some w' /\
     w' = loadContent FromCheckLink (settled StatusFetch hello_loaded) /\
     content_requests w' = S (content_requests hello_loaded)) /\
  (forall edited,
     step (Input (Js.lit "hello!")) hello_loaded = Some edited ->
     exists w',
       step (Settles StatusFetch (Response true)) edited = Some w' /\
       text w' = Js.lit "hello!" /\
       saveState w' = linked true /\
       network_calls w' = network_calls edited).
Proof.
  split.
  - destruct (proj1 (checkLink_outcomes hello_loaded
                       (or_introl eq_refl)))
      as (w' & Hstep & Hcall & _ & Hreq & _).
    exists w'. split; [exact Hstep|]. split; [apply Hcall; reflexivity|].
    apply Hreq. split; reflexivity.
  - intros edited Hedit. injection Hedit as <-.
    destruct (proj1 (checkLink_outcomes
                       (flush_watch (text hello_loaded)
                          (set_text (Js.lit "hello!") hello_loaded))
                       (or_introl eq_refl)))
      as (w' & Hstep & _ & Hkeep & _ & Htext & _).
    exists w'. split; [exact Hstep|].
    destruct Hkeep as (_ & Hs & _ & Hn); [vm_compute; discriminate|].
    rewrite Htext, Hs, Hn. repeat split.
Defined.

End Polling.

Section Invariants.

Import Web.

(** A property of [mounted] that every turn of the event loop keeps
    holds of every reachable world. *)
Lemma run_invariant (P : World -> Prop) :
  (forall e w w', P w -> step e w = Some w' -> P w') ->
  forall es w w', P w -> run es w = Some w' -> P w'.
Proof.
  intros Hstep es; induction es as [|e es IH]; simpl; intros w w' Hw Hrun.
  - injection Hrun as <-. exact Hw.
  - destruct (step e w) as [w1|] eqn:E; [|discriminate].
    eapply IH; [|exact Hrun]. eapply Hstep; eassumption.
Qed.

Lemma reachable_invariant (P : World -> Prop) :
  P mounted ->
  (forall e w w', P w -> step e w = Some w' -> P w') ->
  forall w, reachable w -> P w.
Proof.
  intros H0 Hstep w [es Hrun]. eapply run_invariant; eassumption.
Qed.

Lemma reachable_step (e : Event) (w w' : World) :
  reachable w -> step e w = Some w' -> reachable w'.
Proof.
  intros [es Hrun] Hstep. exists (es ++ [e]).
  revert Hrun. generalize mounted. induction es as [|x es IH]; simpl.
  - intros m Hm. injection Hm as ->. rewrite Hstep. reflexivity.
  - intros m. destruct (step x m); [apply IH | discriminate].
Qed.

Lemma suspended_flush_watch (old : Js.str) (w : World) :
  suspended (flush_watch old w) = suspended w.
Proof. apply flush_watch_frame. Qed.

Lemma isLoading_flush_watch (old : Js.str) (w : World) :
  isLoading (flush_watch old w) = isLoading w.
Proof. apply flush_watch_frame. Qed.

Lemma timers_flush_watch (old : Js.str) (w : World) :
  timers (flush_watch old w) = timers w.
Proof. apply flush_watch_frame. Qed.

Lemma effects_flush_watch (old : Js.str) (w : World) :
  effects (flush_watch old w) = effects w.
Proof. apply flush_watch_frame. Qed.

Lemma loadContent_parsed_some (c : Caller) (data : Doc) (w : World) :
  loadContent_parsed c (Some data) w
  = resume c (set_isLoading false (adopt_load data w)).
Proof.
  unfold loadContent_parsed. rewrite loadContent_parsed_flush. reflexivity.
Qed.

Lemma handleSaveFile_parsed_some (data : Doc) (w : World) :
  handleSaveFile_parsed (Some data) w
  = set_isLoading false (adopt_save data w).
Proof. apply handleSaveFile_parsed_flush. Qed.

(** All the watcher can do is assign the link state. *)
Lemma flush_watch_shape (old : Js.str) (w : World) :
  exists s, flush_watch old w = set_saveState s w.
Proof.
  exists (saveState (flush_watch old w)).
  unfold flush_watch, watch_text.
  destruct (Js.eqb (text w) old); [destruct w; reflexivity|].
  destruct (negb (isLinked (saveState w))); [destruct w; reflexivity|].
  destruct (Js.eqb (text w) (lastSavedContent w)); reflexivity.
Qed.

(** The continuations, evaluated down to the cells they assign. *)
Ltac open_component :=
  repeat match goal with
         | |- context [flush_watch ?old ?x] =>
             let s := fresh "s" in
             destruct (flush_watch_shape old x) as [s ->]
         end;
  cbv beta iota zeta delta
      [checkLink checkLink_fetched
       handleSaveFile_parsed handleSaveFile_fetched handleSaveFile_catch
       handleSaveFile loadContent_parsed loadContent_fetched
       loadContent_catch loadContent resume adopt_load adopt_save
       setTimeout_checkLink await emit
       set_text set_title set_saveState set_lastSavedContent
       set_isLoading set_suspended set_timers
       markLinked markUnlinked
       text title saveState lastSavedContent isLoading suspended timers
       effects];
  simpl.

(** Split on each test that is not itself the outcome of a test. *)
Ltac split_tests :=
  repeat match goal with
         | |- context [match ?x with _ => _ end] =>
             lazymatch x with
             | context [match _ with _ => _ end] => fail
             | _ => destruct x eqn:?; simpl
             end
         end.

(** The cases of one turn of the event loop from a world given by its
    cells: on each, [w'] is replaced by what the turn computes. *)
Ltac step_cases e Hstep :=
  let R := fresh "R" in
  destruct e as [?newText| | |?k ?r]; unfold step in Hstep;
  cbn [text title saveState lastSavedContent isLoading suspended timers
       effects] in Hstep;
  [ injection Hstep as <-
  | injection Hstep as <-
  | match type of Hstep with
    | context [match ?tm with [] => _ | _ :: _ => _ end] =>
        destruct tm eqn:?; [discriminate Hstep|];
        injection Hstep as <-
    end
  | match type of Hstep with
    | context [remove_first ?k ?su] =>
        destruct (remove_first k su) eqn:R;
        [|discriminate Hstep];
        destruct k as [[|]|[|]| | |], r as [|[|]|?data];
        unfold continue in Hstep; try discriminate Hstep;
        injection Hstep as <-
    end ].

Lemma guarded_step (e : Event) (w w' : World) :
  guarded w -> step e w = Some w' -> guarded w'.
Proof.
  unfold guarded, in_flight. intros G Hstep.
  destruct w as [t ti s l ld su tm ef]; simpl in G.
  step_cases e Hstep;
    try (rewrite (remove_first_count is_content_op _ _ _ R) in G);
    open_component; split_tests; destruct ld; simpl in *;
    congruence || lia.
Qed.

Lemma Forall_delay_snoc (l : list Z) :
  Forall (fun ms => ms = CHECK_LINK_MS) l ->
  Forall (fun ms => ms = CHECK_LINK_MS) (l ++ [CHECK_LINK_MS]).
Proof.
  intros H. apply Forall_app. split; [exact H|]. constructor; auto.
Qed.

Lemma ticking_step (e : Event) (w w' : World) :
  ticking w -> step e w = Some w' -> ticking w'.
Proof.
  unfold ticking, polls_running. intros [T D] Hstep.
  destruct w as [t ti s l ld su tm ef]; simpl in T, D.
  step_cases e Hstep;
    try (rewrite (remove_first_count is_poll_op _ _ _ R) in T);
    try match goal with
        | H : Forall _ (_ :: _) |- _ => inversion H; subst; clear H
        end;
    open_component; split_tests; simpl in *;
    rewrite ?length_app; simpl;
    (split; [lia | auto using Forall_delay_snoc]).
Qed.

Lemma posts_unsaved_step (e : Event) (w w' : World) :
  posts_unsaved w -> step e w = Some w' -> posts_unsaved w'.
Proof.
  unfold posts_unsaved. intros P Hstep url body.
  destruct w as [t ti s l ld su tm ef]; simpl in P.
  step_cases e Hstep; open_component; split_tests; simpl;
    intros H;
    repeat match goal with
           | H : _ \/ _ |- _ => destruct H as [H|H]
           end;
    try discriminate H; eauto;
    injection H as _ <-; reflexivity.
Qed.

Lemma classified_step (e : Event) (w w' : World) :
  classified w -> step e w = Some w' -> classified w'.
Proof.
  unfold classified. intros C Hstep d.
  destruct w as [t ti s l ld su tm ef]; simpl in C.
  step_cases e Hstep;
    rewrite ?loadContent_parsed_some, ?handleSaveFile_parsed_some;
    unfold flush_watch, watch_text;
    cbv beta iota zeta delta
        [checkLink checkLink_fetched
         handleSaveFile_parsed handleSaveFile_fetched handleSaveFile_catch
         handleSaveFile loadContent_parsed loadContent_fetched
         loadContent_catch loadContent resume adopt_load adopt_save
         setTimeout_checkLink await emit
         set_text set_title set_saveState set_lastSavedContent
         set_isLoading set_suspended set_timers
         markLinked markUnlinked markSaved markDirty isLinked negb
         text title saveState lastSavedContent isLoading suspended timers
         effects];
    split_tests; simpl; intros H;
    try discriminate H; try (injection H as <-);
    try (specialize (C _ H); rewrite C);
    repeat match goal with
           | E : Js.eqb ?a ?a = false |- _ =>
               rewrite Js_eqb_refl in E; discriminate E
           | E : Js.eqb _ _ = true |- _ => apply Js_eqb_eq in E; subst
           end;
    rewrite ?Js_eqb_refl;
    repeat match goal with
           | E : Js.eqb _ _ = _ |- _ => rewrite E
           end; auto.
Qed.

Lemma guarded_mounted : guarded mounted.
Proof. reflexivity. Qed.

Lemma ticking_mounted : ticking mounted.
Proof. split; [reflexivity | constructor]. Qed.

Lemma posts_unsaved_mounted : posts_unsaved mounted.
Proof.
  intros url body [H|[H|[]]]; discriminate H.
Qed.

Lemma classified_mounted : classified mounted.
Proof. intros d H; discriminate H. Qed.

(** In every world the editor can reach: the guard agrees with what is
    in flight, the poll loop has exactly one token, every POST carried
    [saved: false], and the dirty flag is the comparison of the buffer
    with the snapshot. *)
Lemma reachable_guarded (w : World) : reachable w -> guarded w.
Proof.
  apply reachable_invariant; [exact guarded_mounted|].
  intros e x x'; apply guarded_step.
Qed.

Lemma reachable_ticking (w : World) : reachable w -> ticking w.
Proof.
  apply reachable_invariant; [exact ticking_mounted|].
  intros e x x'; apply ticking_step.
Qed.

Lemma reachable_posts_unsaved (w : World) : reachable w -> posts_unsaved w.
Proof.
  apply reachable_invariant; [exact posts_unsaved_mounted|].
  intros e x x'; apply posts_unsaved_step.
Qed.

Lemma reachable_classified (w : World) : reachable w -> classified w.
Proof.
  apply reachable_invariant; [exact classified_mounted|].
  intros e x x'; apply classified_step.
Qed.

End Invariants.

Section Reentrancy.

Import Web.

Lemma reachable_mounted : reachable mounted.
Proof. exists []. reflexivity. Qed.

Lemma handleSaveFile_guard (w : World) :
  isLoading w = true -> handleSaveFile w = w.
Proof. intros L. unfold handleSaveFile. rewrite L. reflexivity. Qed.

Lemma loadContent_guard (c : Caller) (w : World) :
  isLoading w = true -> loadContent c w = resume c w.
Proof. intros L. unfold loadContent. rewrite L. reflexivity. Qed.

(** C5. In every world the editor can reach at most one load or save
    is in flight. While one is, a call of [handleSaveFile] or
    [loadContent] returns at once: no request is sent and no cell
    changes (a [loadContent] awaited by [checkLink] returns into its
    [finally], which only sets the next timer). So a save requested
    twice in a row sends one request. *)
Theorem single_in_flight (w : World) :
  reachable w ->
  (in_flight w <= 1)%nat /\
  (in_flight w = 1%nat <-> isLoading w = true) /\
  (in_flight w = 1%nat ->
   step SaveRequest w = Some w /\
   loadContent FromMounted w = w /\
   loadContent FromCheckLink w = setTimeout_checkLink CHECK_LINK_MS w /\
   forall c,
     let w' := loadContent c w in
     network_calls w' = network_calls w /\
     text w' = text w /\ title w' = title w /\
     saveState w' = saveState w /\
     lastSavedContent w' = lastSavedContent w /\
     isLoading w' = isLoading w /\
     suspended w' = suspended w) /\
  run [SaveRequest; SaveRequest] w = run [SaveRequest] w /\
  (network_calls (handleSaveFile (handleSaveFile w))
   <= S (network_calls w))%nat.
Proof.
  intros Hr. pose proof (reachable_guarded w Hr) as G. unfold guarded in G.
  split; [rewrite G; destruct (isLoading w); lia|].
  split; [rewrite G; destruct (isLoading w); split; congruence|].
  split.
  - intros H1. rewrite G in H1.
    destruct (isLoading w) eqn:L; [|discriminate].
    unfold step, handleSaveFile, loadContent. rewrite L.
    split; [reflexivity|]. split; [reflexivity|]. split; [reflexivity|].
    intros c; destruct c; simpl; auto 10.
  - assert (Hloading : isLoading (handleSaveFile w) = true).
    { unfold handleSaveFile. destruct (isLoading w) eqn:L; [exact L|].
      reflexivity. }
    cbn [run step]. rewrite (handleSaveFile_guard _ Hloading).
    split; [reflexivity|].
    unfold handleSaveFile. destruct (isLoading w); unfold network_calls;
      simpl; lia.
Qed.

(** While the first load of the session is in flight, a save request
    and a poll-triggered load both come to nothing. *)
Lemma single_in_flight_witness :
  in_flight mounted = 1%nat /\
  step SaveRequest mounted = Some mounted /\
  network_calls (loadContent FromCheckLink mounted)
  = network_calls mounted /\
  run [SaveRequest; SaveRequest] hello_loaded
  = run [SaveRequest] hello_loaded.
Proof.
  destruct (single_in_flight mounted reachable_mounted) as (_ & _ & H & _).
  destruct (H eq_refl) as (Hsave & _ & _ & Hload).
  split; [reflexivity|]. split; [exact Hsave|].
  split; [exact (proj1 (Hload FromCheckLink))|].
  apply (single_in_flight hello_loaded).
  eexists. exact hello_loaded_reachable.
Defined.

Lemma ticking_cases (w : World) :
  ticking w ->
  (polls_running w = 1%nat /\ timers w = []) \/
  (polls_running w = 0%nat /\ timers w = [CHECK_LINK_MS]).
Proof.
  intros [T D]. destruct (timers w) as [|ms [|ms' tm]]; simpl in T.
  - left. split; [lia | reflexivity].
  - right. inversion D; subst. split; [lia | reflexivity].
  - lia.
Qed.

(** C6. In every world the editor can reach, either one run of
    [checkLink] is under way and no timer is set, or none is under way
    and exactly one timer is set, for 30000 ms. Hence whatever turn
    ends a run (a failed or successful status request, a load that was
    skipped, failed or completed) leaves exactly that one timer; a
    rejected promise anywhere on the poll path ends the run in this
    way too; and when the timer fires the next run starts. *)
Theorem poll_always_rescheduled (w : World) :
  reachable w ->
  CHECK_LINK_MS = 30000%Z /\
  ((polls_running w = 1%nat /\ timers w = []) \/
   (polls_running w = 0%nat /\ timers w = [CHECK_LINK_MS])) /\
  (forall e w',
     step e w = Some w' ->
     polls_running w = 1%nat -> polls_running w' = 0%nat ->
     timers w' = [CHECK_LINK_MS]) /\
  (forall k,
     is_poll_op k = true -> In k (suspended w) ->
     exists w',
       step (Settles k Rejects) w = Some w' /\
       polls_running w' = 0%nat /\ timers w' = [CHECK_LINK_MS]) /\
  (timers w = [CHECK_LINK_MS] ->
   exists w',
     step TimerFires w = Some w' /\
     polls_running w' = 1%nat /\ timers w' = []).
Proof.
  intros Hr. pose proof (reachable_ticking w Hr) as T.
  split; [reflexivity|]. split; [exact (ticking_cases w T)|].
  split; [|split].
  - intros e w' Hstep _ H0.
    destruct (ticking_cases w' (reachable_ticking w' (reachable_step e w w' Hr Hstep)))
      as [[H _]|[_ H]]; [congruence | exact H].
  - intros k Hk Hin.
    destruct (remove_first_In _ _ Hin) as [rest Hrest].
    assert (Hstep : exists w', step (Settles k Rejects) w = Some w').
    { unfold step. rewrite Hrest. destruct k as [c|c| | |]; simpl; eauto. }
    destruct Hstep as [w' Hstep]. exists w'. split; [exact Hstep|].
    pose proof (ticking_cases w'
                  (reachable_ticking w'
                     (reachable_step _ w w' Hr Hstep))) as T'.
    assert (H0 : polls_running w' = 0%nat).
    { destruct T as [T _]. unfold polls_running in *.
      rewrite (remove_first_count is_poll_op _ _ _ Hrest), Hk in T.
      unfold step in Hstep. rewrite Hrest in Hstep.
      destruct k as [[|]|[|]| | |]; try discriminate Hk;
        injection Hstep as <-; simpl; lia. }
    destruct T' as [[H _]|[_ H]]; [congruence | auto].
  - intros Ht. unfold step. rewrite Ht. eexists. split; [reflexivity|].
    destruct (ticking_cases w T) as [[_ H]|[H _]]; [congruence|].
    unfold polls_running in *. simpl. rewrite H. auto.
Qed.

(** Right after mounting, the first [checkLink] is waiting for the
    status: if that request is rejected, the timer is set; when it
    fires, the second run is under way. *)
Lemma poll_always_rescheduled_witness :
  polls_running mounted = 1%nat /\ timers mounted = [] /\
  exists w',
    step (Settles StatusFetch Rejects) mounted = Some w' /\
    polls_running w' = 0%nat /\ timers w' = [30000%Z] /\
    exists w'',
      step TimerFires w' = Some w'' /\
      polls_running w'' = 1%nat /\ timers w'' = [].
Proof.
  split; [reflexivity|]. split; [reflexivity|].
  destruct (poll_always_rescheduled mounted reachable_mounted)
    as (_ & _ & _ & Hrej & _).
  destruct (Hrej StatusFetch eq_refl (or_introl eq_refl))
    as (w' & Hstep & H0 & Ht).
  exists w'. repeat split; try assumption.
  destruct (poll_always_rescheduled w'
              (reachable_step _ mounted w' reachable_mounted Hstep))
    as (_ & _ & _ & _ & Hfire).
  exact (Hfire Ht).
Defined.

End Reentrancy.

Section SaveRequests.

Import Web.

Lemma saving_reachable : run saving_events mounted = Some saving.
Proof. vm_compute. reflexivity. Qed.

(** C10. Every POST the editor has sent carried [saved: false]: a save
    request takes the buffer and the title as they are and the literal
    [false], whatever the link state. The state adopted afterwards is
    read off the response alone: Linked(false) if its [saved] is true,
    Unlinked if not. *)
Theorem save_request_unsaved (w : World) :
  reachable w ->
  (forall url body,
     In (Fetch (POST url body)) (effects w) -> data_saved body = false) /\
  (isLoading w = false ->
   exists w',
     step SaveRequest w = Some w' /\
     effects w' =
     Fetch (POST API_CONTENT_URL (mkDoc (text w) (title w) false))
           :: effects w) /\
  (In SaveJson (suspended w) ->
   forall data,
     exists w',
       step (Settles SaveJson (Json data)) w = Some w' /\
       saveState w' = (if data_saved data then linked false else unlinked) /\
       text w' = data_content data /\
       title w' = data_title data /\
       lastSavedContent w' = data_content data).
Proof.
  intros Hr. split; [exact (reachable_posts_unsaved w Hr)|]. split.
  - intros L. eexists. split; [reflexivity|].
    unfold handleSaveFile. rewrite L. reflexivity.
  - intros Hin data. eexists.
    split; [rewrite step_Settles by exact Hin; reflexivity|].
    rewrite handleSaveFile_parsed_some.
    destruct (adopt_save_fields data (settled SaveJson w))
      as (Ht & Hti & Hl & Hs & _).
    simpl. rewrite Ht, Hti, Hl, Hs. auto.
Qed.

(** A save of the edited buffer: the request carries [saved: false]
    although the editor is Linked, and the answer decides the state
    either way. *)
Lemma save_request_unsaved_witness :
  run saving_events mounted = Some saving /\
  saveState saving = linked true /\
  effects saving =
  [Fetch (POST API_CONTENT_URL
            (mkDoc (Js.lit "hello!") (Some (Js.lit "doc")) false));
   Fetch (GET API_STATUS_URL);
   Fetch (GET API_CONTENT_URL)] /\
  (forall url body,
     In (Fetch (POST url body)) (effects saving) ->
     data_saved body = false) /\
  (exists w',
     step (Settles SaveJson
             (Json (mkDoc (Js.lit "hello!") (Some (Js.lit "doc")) true)))
          saving = Some w' /\
     saveState w' = linked false) /\
  (exists w',
     step (Settles SaveJson
             (Json (mkDoc (Js.lit "hello!") (Some (Js.lit "doc")) false)))
          saving = Some w' /\
     saveState w' = unlinked).
Proof.
  destruct (save_request_unsaved saving
              (ex_intro _ saving_events saving_reachable))
    as (Hposts & _ & Hadopt).
  split; [exact saving_reachable|].
  split; [reflexivity|]. split; [reflexivity|].
  split; [exact Hposts|]. split.
  - destruct (Hadopt (or_introl eq_refl)
                (mkDoc (Js.lit "hello!") (Some (Js.lit "doc")) true))
      as (w' & Hstep & Hs & _).
    exists w'. split; [exact Hstep | exact Hs].
  - destruct (Hadopt (or_introl eq_refl)
                (mkDoc (Js.lit "hello!") (Some (Js.lit "doc")) false))
      as (w' & Hstep & Hs & _).
    exists w'. split; [exact Hstep | exact Hs].
Defined.

End SaveRequests.

(** ** The export path of the standalone editors *)

Section ExportPath.

Import Standalone.

(** No unit of the class survives [purifyFilename]. *)
Lemma purifyFilename_clean (raw : Js.str) (c : N) :
  In c (purifyFilename raw) -> in_class c = false.
Proof.
  unfold purifyFilename. rewrite in_map_iff. intros (x & Hx & _).
  destruct (in_class x) eqn:E; subst c; [reflexivity | exact E].
Qed.

(** It replaces, unit for unit; nothing is removed. *)
Lemma purifyFilename_length (raw : Js.str) :
  List.length (purifyFilename raw) = List.length raw.
Proof. apply length_map. Qed.

(** The backslash is not in the class, so it stays. *)
Lemma purifyFilename_keeps_backslash (raw : Js.str) :
  In backslash raw -> In backslash (purifyFilename raw).
Proof.
  intros H. unfold purifyFilename. apply in_map_iff.
  exists backslash. split; [reflexivity | exact H].
Qed.

Lemma trimStart_In (s : Js.str) (c : N) : In c (Js.trimStart s) -> In c s.
Proof.
  induction s as [|x s IH]; simpl; [tauto|].
  destruct (Js.isWhite x); simpl; tauto.
Qed.

Lemma trim_In (s : Js.str) (c : N) : In c (Js.trim s) -> In c s.
Proof.
  unfold Js.trim, Js.trimEnd. intros H.
  apply (proj2 (in_rev _ _)), trimStart_In in H.
  apply (proj2 (in_rev _ _)) in H. apply trimStart_In. exact H.
Qed.

Lemma requestTitle_clean (options : TitleOptions) (t input : option Js.str)
      (value : Js.str) :
  requestTitle options t input = Some value -> clean value.
Proof.
  unfold requestTitle. destruct input as [typed|]; [|discriminate].
  intros H; injection H as <-. intros c. apply purifyFilename_clean.
Qed.

Lemma step_clean_title (e : Event) (s : Session) :
  clean_title s -> clean_title (step e s).
Proof.
  unfold clean_title. intros H.
  destruct e as [input|input|name contents|newText]; simpl.
  - unfold handleChangedTitle.
    destruct (requestTitle _ (title s) input) as [value|] eqn:E;
      [|exact H].
    simpl. eapply requestTitle_clean; exact E.
  - unfold initWithDefaultFile.
    destruct (requestTitle _ (title s) input) as [value|] eqn:E;
      [|exact H].
    simpl. eapply requestTitle_clean; exact E.
  - intros c. apply purifyFilename_clean.
  - exact H.
Qed.

(** Every title the session ever holds went through
    [purifyFilename]. *)
Lemma run_clean_title (es : list Event) : clean_title (run es start).
Proof.
  unfold run. induction es as [|e es IH] using rev_ind.
  - exact I.
  - rewrite fold_left_app. simpl. apply step_clean_title. exact IH.
Qed.

Lemma DEFAULT_TITLE_clean : clean DEFAULT_TITLE.
Proof.
  intros c [<-|[<-|[<-|[]]]]; reflexivity.
Qed.

Lemma downloadFilename_stem (s : Session) :
  downloadFilename s = downloadStem s ++ Js.lit ".txt".
Proof.
  unfold downloadStem, downloadFilename.
  set (safe := match option_map Js.trim (title s) with
               | Some trimmed =>
                   if (0 <? List.length trimmed)%nat then trimmed
                   else DEFAULT_TITLE
               | None => DEFAULT_TITLE
               end).
  rewrite length_app. simpl List.length.
  replace (List.length safe + 4 - 4)%nat with (List.length safe + 0)%nat
    by lia.
  rewrite firstn_app_2. simpl. rewrite app_nil_r. reflexivity.
Qed.

(** What the export does achieve: the eight units of the class never
    reach the file name. *)
Lemma downloadStem_clean (es : list Event) :
  clean (downloadStem (run es start)).
Proof.
  pose proof (run_clean_title es) as H. unfold clean_title in H.
  set (s := run es start) in *.
  assert (Hstem : downloadStem s
                  = match option_map Js.trim (title s) with
                    | Some trimmed =>
                        if (0 <? List.length trimmed)%nat then trimmed
                        else DEFAULT_TITLE
                    | None => DEFAULT_TITLE
                    end).
  { apply (app_inv_tail (Js.lit ".txt")).
    rewrite <- downloadFilename_stem. reflexivity. }
  rewrite Hstem. destruct (title s) as [t|]; simpl.
  - destruct (0 <? List.length (Js.trim t))%nat.
    + intros c Hc. apply H, trim_In, Hc.
    + exact DEFAULT_TITLE_clean.
  - exact DEFAULT_TITLE_clean.
Qed.

(** C9, at the input where it fails. The user enters the editor with
    the title [a\b]. Backslash, the path separator of the system whose
    reserved characters the class lists, is not in the class: the title
    is kept as typed and the file is offered as [a\b.txt]. *)
Theorem export_keeps_backslash :
  let s := run [EnterDirectly (Some (Js.lit "a\b"))] start in
  title s = Some (Js.lit "a\b") /\
  handleSaveFile s = Some (mkDownload (Js.lit "a\b.txt") []) /\
  downloadStem s = Js.lit "a\b" /\
  In backslash (downloadStem s).
Proof.
  vm_compute. repeat split; auto.
Qed.

End ExportPath.

(** ** Page height and zoom *)

Section PageGeometry.

Import Geometry.

Local Open Scope Z_scope.

Lemma zoomLevel_syncPageHeight (v : View) :
  zoomLevel (syncPageHeight v) = zoomLevel v.
Proof. unfold syncPageHeight. destruct (pageRef v); reflexivity. Qed.

Lemma pageHeightPx_syncPageHeight (v : View) :
  HEIGHT <= pageHeightPx v -> HEIGHT <= pageHeightPx (syncPageHeight v).
Proof.
  unfold syncPageHeight. destruct (pageRef v); simpl; lia.
Qed.

Lemma step_pageHeightPx (e : Event) (v : View) :
  HEIGHT <= pageHeightPx v -> HEIGHT <= pageHeightPx (step e v).
Proof.
  destruct e; simpl; try exact (fun H => H). intros _. lia.
Qed.

(** The page height never falls below one page, rendered or not. *)
Lemma run_pageHeightPx (es : list Event) :
  HEIGHT <= pageHeightPx (run es unrendered).
Proof.
  unfold run. induction es as [|e es IH] using rev_ind.
  - simpl. lia.
  - rewrite fold_left_app. simpl. apply step_pageHeightPx. exact IH.
Qed.

(** C8. Whatever height [natural] the content is measured at,
    [syncPageHeight] sets the page height to the larger of [natural]
    and [HEIGHT] (1123): never below one page, never below the content,
    exactly one page when the content needs no more (an empty
    document), and so never zero. The textarea gets that height and
    the wrapper keeps its scroll offset. In every view the editor can
    be in, rendered or not, the page height is at least [HEIGHT]. *)
Theorem syncPageHeight_max
        (natural : Z) (style : option Z) (wrapper : option Z)
        (before : Z) (zoom : float) :
  let v := syncPageHeight
             (mkView (Some (mkPage natural style)) wrapper before zoom) in
  HEIGHT = 1123 /\
  pageHeightPx v = Z.max natural HEIGHT /\
  HEIGHT <= pageHeightPx v /\
  natural <= pageHeightPx v /\
  (natural <= HEIGHT -> pageHeightPx v = HEIGHT) /\
  pageHeightPx v <> 0 /\
  pageRef v = Some (mkPage natural (Some (pageHeightPx v))) /\
  scrollWrapperRef v = wrapper /\
  (forall es, HEIGHT <= pageHeightPx (run es unrendered)).
Proof.
  simpl. unfold HEIGHT.
  repeat split; try lia.
  - destruct wrapper; reflexivity.
  - intros es. apply run_pageHeightPx.
Qed.

(** An empty document, measured at no height at all, and one of three
    pages. *)
Lemma syncPageHeight_max_witness :
  pageHeightPx (run [Render 0] unrendered) = 1123 /\
  pageHeightPx (run [Render 0; Render 3369] unrendered) = 3369 /\
  pageHeightPx (run [Render 0; Render 3369; Render 0] unrendered) = 1123.
Proof.
  destruct (syncPageHeight_max 0 None (Some 0) HEIGHT 1%float)
    as (_ & H & _).
  split; [exact H|]. split; reflexivity.
Defined.

End PageGeometry.

Section ClampAnyNumber.

Import Geometry.

Local Open Scope Z_scope.

(** A mantissa of [d] binary digits lies between [2^(d-1)] and [2^d]. *)
Lemma digits2_pos_bounds (m : positive) :
  2 ^ (Z.pos (digits2_pos m) - 1) <= Z.pos m < 2 ^ Z.pos (digits2_pos m).
Proof.
  induction m as [p IH|p IH|]; simpl digits2_pos.
  - rewrite Pos2Z.inj_succ.
    replace (Z.succ (Z.pos (digits2_pos p)) - 1)
      with (Z.succ (Z.pos (digits2_pos p) - 1)) by lia.
    rewrite !Z.pow_succ_r by lia. lia.
  - rewrite Pos2Z.inj_succ.
    replace (Z.succ (Z.pos (digits2_pos p)) - 1)
      with (Z.succ (Z.pos (digits2_pos p) - 1)) by lia.
    rewrite !Z.pow_succ_r by lia. lia.
  - simpl. lia.
Qed.

Lemma Prim2SF_not_nan (x : float) :
  PrimFloat.is_nan x = false -> Prim2SF x <> S754_nan.
Proof.
  intros Hn. unfold Prim2SF. rewrite Hn.
  destruct (PrimFloat.is_zero x); [discriminate|].
  destruct (PrimFloat.is_infinity x); [discriminate|].
  destruct (Z.frexp x) as [r ex].
  destruct (shr_fexp prec emax _ _ _) as [shr e'].
  destruct (shr_m shr); discriminate.
Qed.

(** A number above 0.5 and not above 3, as mantissa and exponent. *)
Lemma within_bounds (x : float) :
  PrimFloat.is_nan x = false ->
  PrimFloat.ltb 0.5 x = true ->
  PrimFloat.ltb 3 x = false ->
  exists m e,
    Prim2SF x = S754_finite false m e /\
    2 ^ 52 <= Z.pos m < 2 ^ 53 /\
    ((e = -53 /\ 2 ^ 52 < Z.pos m) \/ e = -52 \/
     (e = -51 /\ Z.pos m <= 3 * 2 ^ 51)).
Proof.
  intros Hnan Hlo Hhi.
  rewrite ltb_spec in Hlo, Hhi.
  pose proof (Prim2SF_valid x) as V.
  pose proof (Prim2SF_not_nan x Hnan) as N.
  set (lo := Prim2SF 0.5) in Hlo. vm_compute in lo. subst lo.
  set (hi := Prim2SF 3) in Hhi. vm_compute in hi. subst hi.
  destruct (Prim2SF x) as [s|s| |s m e].
  - discriminate Hlo.
  - destruct s; discriminate.
  - contradiction N; reflexivity.
  - exists m, e. unfold SFltb, SFcompare in Hlo, Hhi.
    destruct s; [discriminate Hlo|].
    simpl in V. unfold bounded, canonical_mantissa, fexp, emin in V.
    apply andb_prop in V. destruct V as [V _]. apply Z.eqb_eq in V.
    change prec with 53 in V. change emax with 1024 in V.
    change IntDef.Z.max with Z.max in V.
    change IntDef.Z.sub with Z.sub in V. change IntDef.Z.add with Z.add in V.
    assert (E : -53 <= e <= -51).
    { destruct (Z.compare_spec (-53) e), (Z.compare_spec (-51) e);
        try discriminate; lia. }
    assert (D : Z.pos (digits2_pos m) = 53) by (clear - V E; lia).
    pose proof (digits2_pos_bounds m) as B.
    rewrite D in B. change (2 ^ (53 - 1)) with (2 ^ 52) in B.
    split; [reflexivity|]. split; [exact B|].
    change (PosDef.Pos.compare_cont Eq) with Pos.compare in Hlo, Hhi.
    change (2 ^ 52) with 4503599627370496 in *.
    change (2 ^ 53) with 9007199254740992 in *.
    change (2 ^ 51) with 2251799813685248.
    assert (C : e = -53 \/ e = -52 \/ e = -51) by (clear - E; lia).
    destruct C as [->|[->| ->]].
    + left. split; [reflexivity|].
      change (-53 ?= -53) with Eq in Hlo.
      destruct (Pos.compare_spec 4503599627370496 m) as [H|H|H];
        try discriminate Hlo.
      apply Pos2Z.pos_lt_pos in H. exact H.
    + right. left. reflexivity.
    + right. right. split; [reflexivity|].
      change (-51 ?= -51) with Eq in Hhi.
      destruct (Pos.compare_spec 6755399441055744 m) as [H|H|H];
        try discriminate Hhi.
      * subst m. clear. lia.
      * apply Pos2Z.pos_lt_pos in H. clear - H. lia.
Qed.

Ltac fold_constant t :=
  let c := eval vm_compute in t in change t with c.

(** Such a number has between 50 and 300 hundredths. *)
Lemma hundredths_bounds (m : positive) (e : Z) :
  2 ^ 52 <= Z.pos m < 2 ^ 53 ->
  (e = -53 /\ 2 ^ 52 < Z.pos m) \/ e = -52 \/
  (e = -51 /\ Z.pos m <= 3 * 2 ^ 51) ->
  huge m e = false /\ 50 <= hundredths m e <= 300.
Proof.
  intros B C. unfold huge, hundredths.
  change (2 ^ 52) with 4503599627370496 in *.
  change (2 ^ 53) with 9007199254740992 in *.
  change (2 ^ 51) with 2251799813685248 in *.
  destruct C as [[-> C]|[->|[-> C]]].
  - fold_constant (10 ^ 21 * 2 ^ Z.max (- -53) 0).
    fold_constant (2 ^ Z.max (-53) 0).
    fold_constant (2 ^ Z.max (- -53) 0).
    fold_constant (2 * 9007199254740992).
    split; [apply Z.leb_gt; lia|].
    split; [apply Z.div_le_lower_bound
           | apply Z.lt_succ_r, Z.div_lt_upper_bound]; lia.
  - fold_constant (10 ^ 21 * 2 ^ Z.max (- -52) 0).
    fold_constant (2 ^ Z.max (-52) 0).
    fold_constant (2 ^ Z.max (- -52) 0).
    fold_constant (2 * 4503599627370496).
    split; [apply Z.leb_gt; lia|].
    split; [apply Z.div_le_lower_bound
           | apply Z.lt_succ_r, Z.div_lt_upper_bound]; lia.
  - fold_constant (10 ^ 21 * 2 ^ Z.max (- -51) 0).
    fold_constant (2 ^ Z.max (-51) 0).
    fold_constant (2 ^ Z.max (- -51) 0).
    fold_constant (2 * 2251799813685248).
    split; [apply Z.leb_gt; lia|].
    split; [apply Z.div_le_lower_bound
           | apply Z.lt_succ_r, Z.div_lt_upper_bound]; lia.
Qed.

(** The hundredths of such a number are the number rounded to two
    decimals. *)
Lemma hundredths_nearest (m : positive) (e : Z) :
  e = -53 \/ e = -52 \/ e = -51 ->
  nearest_hundredths (exact m e) (hundredths m e).
Proof.
  intros C. unfold nearest_hundredths, exact, hundredths.
  destruct C as [->|[->| ->]].
  - fold_constant (2 ^ Z.max (-53) 0).
    fold_constant (2 ^ Z.max (- -53) 0).
    fold_constant (2 * 9007199254740992).
    fold_constant (Qpower 2 (-53)).
    set (h := (200 * Z.pos m * 1 + 9007199254740992) / 18014398509481984).
    assert (L := Z.mul_div_le (200 * Z.pos m * 1 + 9007199254740992)
                   18014398509481984 eq_refl).
    assert (U := Z.mul_succ_div_gt (200 * Z.pos m * 1 + 9007199254740992)
                   18014398509481984 eq_refl).
    fold h in L, U. clearbody h.
    unfold Qle, Qlt, Qminus, Qplus, Qmult, Qopp, inject_Z.
    cbn [Qnum Qden]. split; lia.
  - fold_constant (2 ^ Z.max (-52) 0).
    fold_constant (2 ^ Z.max (- -52) 0).
    fold_constant (2 * 4503599627370496).
    fold_constant (Qpower 2 (-52)).
    set (h := (200 * Z.pos m * 1 + 4503599627370496) / 9007199254740992).
    assert (L := Z.mul_div_le (200 * Z.pos m * 1 + 4503599627370496)
                   9007199254740992 eq_refl).
    assert (U := Z.mul_succ_div_gt (200 * Z.pos m * 1 + 4503599627370496)
                   9007199254740992 eq_refl).
    fold h in L, U. clearbody h.
    unfold Qle, Qlt, Qminus, Qplus, Qmult, Qopp, inject_Z.
    cbn [Qnum Qden]. split; lia.
  - fold_constant (2 ^ Z.max (-51) 0).
    fold_constant (2 ^ Z.max (- -51) 0).
    fold_constant (2 * 2251799813685248).
    fold_constant (Qpower 2 (-51)).
    set (h := (200 * Z.pos m * 1 + 2251799813685248) / 4503599627370496).
    assert (L := Z.mul_div_le (200 * Z.pos m * 1 + 2251799813685248)
                   4503599627370496 eq_refl).
    assert (U := Z.mul_succ_div_gt (200 * Z.pos m * 1 + 2251799813685248)
                   4503599627370496 eq_refl).
    fold h in L, U. clearbody h.
    unfold Qle, Qlt, Qminus, Qplus, Qmult, Qopp, inject_Z.
    cbn [Qnum Qden]. split; lia.
Qed.

(** The two bounds are whole hundredths. *)
Lemma bounds_nearest :
  (exists m e,
     Prim2SF 3 = S754_finite false m e /\
     nearest_hundredths (exact m e) 300) /\
  (exists m e,
     Prim2SF 0.5 = S754_finite false m e /\
     nearest_hundredths (exact m e) 50).
Proof.
  split; eexists; eexists; (split; [vm_compute; reflexivity|]);
    unfold nearest_hundredths; split; vm_compute;
    first [reflexivity | discriminate].
Qed.

(** Each of the 251 two-decimal values from 0.50 to 3.00 is within the
    bounds as a binary64 number. *)
Lemma decimal2_range (n : positive) :
  50 <= Z.pos n <= 300 ->
  PrimFloat.leb 0.5 (decimal2 false n) = true /\
  PrimFloat.leb (decimal2 false n) 3 = true.
Proof.
  intros B.
  assert (H : forallb
                (fun k => let r := decimal2 false (Pos.of_nat k) in
                          PrimFloat.leb 0.5 r && PrimFloat.leb r 3)
                (seq 50 251) = true) by (vm_compute; reflexivity).
  rewrite forallb_forall in H.
  specialize (H (Pos.to_nat n)). rewrite Pos2Nat.id in H.
  apply andb_prop. apply H. apply in_seq. lia.
Qed.

(** Each of them is the binary64 number its digits are read as. *)
Lemma decimal2_read (n : positive) :
  50 <= Z.pos n <= 300 ->
  within_half_ulp (Z.pos n # 100) (decimal2 false n).
Proof.
  intros B.
  assert (H : forallb
                (fun k =>
                   match Prim2SF (decimal2 false (Pos.of_nat k)) with
                   | S754_finite false m e =>
                       Qle_bool
                         (Qabs (exact m e - (Z.pos (Pos.of_nat k) # 100)))
                         ((1 # 2) * Qpower 2 e)
                   | _ => false
                   end)
                (seq 50 251) = true) by (vm_compute; reflexivity).
  rewrite forallb_forall in H.
  specialize (H (Pos.to_nat n)). rewrite Pos2Nat.id in H.
  assert (I : In (Pos.to_nat n) (seq 50 251)) by (apply in_seq; lia).
  specialize (H I).
  destruct (Prim2SF (decimal2 false n)) as [| | |[|] m e] eqn:E;
    try discriminate H.
  exists m, e. split; [exact E|]. apply Qle_bool_iff. exact H.
Qed.

(** What is above 3 is above 0.5. *)
Lemma above_upper (x : float) :
  PrimFloat.ltb 3 x = true -> PrimFloat.ltb 0.5 x = true.
Proof.
  rewrite !ltb_spec.
  set (lo := Prim2SF 0.5). vm_compute in lo. subst lo.
  set (hi := Prim2SF 3). vm_compute in hi. subst hi.
  destruct (Prim2SF x) as [s|s| |s m e]; try discriminate.
  - destruct s; [discriminate | reflexivity].
  - unfold SFltb, SFcompare. destruct s; [discriminate|].
    destruct (Z.compare_spec (-51) e) as [E|E|E]; try discriminate;
      intros H.
    + subst e. reflexivity.
    + destruct (Z.compare_spec (-53) e) as [E'|E'|E']; [lia | reflexivity | lia].
Qed.

(** The clamp, by cases on the sum. *)
Lemma clamp_cases (x : float) :
  let c := Math_max 0.5 (Math_min 3 x) in
  (PrimFloat.is_nan x = true -> c = nan) /\
  (PrimFloat.is_nan x = false -> PrimFloat.ltb 3 x = true -> c = 3%float) /\
  (PrimFloat.is_nan x = false -> PrimFloat.ltb 3 x = false ->
   PrimFloat.ltb 0.5 x = false -> c = 0.5%float) /\
  (PrimFloat.is_nan x = false -> PrimFloat.ltb 3 x = false ->
   PrimFloat.ltb 0.5 x = true -> c = x).
Proof.
  unfold Math_max, Math_min.
  change (PrimFloat.is_nan 3) with false.
  change (PrimFloat.is_nan 0.5) with false.
  change (PrimFloat.get_sign 3) with false.
  change (PrimFloat.get_sign 0.5) with false.
  cbv beta iota. simpl orb.
  repeat split.
  - intros ->. reflexivity.
  - intros -> ->. reflexivity.
  - intros Hn H3 H. rewrite Hn, H3.
    destruct (PrimFloat.ltb x 3); rewrite Hn, H;
      destruct (PrimFloat.ltb x 0.5); reflexivity.
  - intros Hn H3 H. rewrite Hn, H3.
    destruct (PrimFloat.ltb x 3); rewrite Hn, H; reflexivity.
Qed.

(** [changeZoomLevel] on any two numbers: when the sum is a number, the
    result is the clamped sum rounded to two decimals and read back as
    a binary64 number, so one of the
    two-decimal values from 0.50 to 3.00, within the bounds, and is the
    bound itself when the sum is beyond it. *)
Lemma changeZoomLevel_any (zoom delta : float) :
  let sum := (zoom + delta)%float in
  let r := changeZoomLevel delta zoom in
  (PrimFloat.is_nan sum = true -> r = nan) /\
  (PrimFloat.is_nan sum = false ->
   (exists n,
      50 <= Z.pos n <= 300 /\ r = decimal2 false n /\
      (exists m e,
         Prim2SF (Math_max 0.5 (Math_min 3 sum)) = S754_finite false m e /\
         nearest_hundredths (exact m e) (Z.pos n)) /\
      within_half_ulp (Z.pos n # 100)%Q r) /\
   PrimFloat.leb 0.5 r = true /\ PrimFloat.leb r 3 = true /\
   (PrimFloat.ltb 3 sum = true -> r = 3%float) /\
   (PrimFloat.ltb 0.5 sum = false -> r = 0.5%float)).
Proof.
  intros sum r. unfold r, changeZoomLevel. fold sum. clearbody sum.
  destruct (clamp_cases sum) as (Cnan & Chi & Clo & Cmid).
  destruct bounds_nearest as (N3 & N05).
  split.
  - intros Hn. rewrite (Cnan Hn). reflexivity.
  - intros Hn.
    destruct (PrimFloat.ltb 3 sum) eqn:L3.
    + rewrite (Chi Hn eq_refl).
      split; [exists 300%positive;
              split; [lia|]; split; [vm_compute; reflexivity|];
              split; [exact N3 | apply (decimal2_read 300); lia]|].
      split; [vm_compute; reflexivity|].
      split; [vm_compute; reflexivity|].
      split; [intros _; vm_compute; reflexivity|].
      intros H. rewrite (above_upper sum L3) in H. discriminate H.
    + destruct (PrimFloat.ltb 0.5 sum) eqn:L05.
      * rewrite (Cmid Hn eq_refl eq_refl).
        destruct (within_bounds sum Hn L05 L3) as (m & e & HP & B & C).
        destruct (hundredths_bounds m e B C) as (Hh & Hn1 & Hn2).
        unfold Number_toFixed2. rewrite HP, Hh.
        assert (Hr : nearest_hundredths (exact m e) (hundredths m e)).
        { apply hundredths_nearest. clear - C. tauto. }
        destruct (hundredths m e) as [|n|n] eqn:E; try lia.
        destruct (decimal2_range n (conj Hn1 Hn2)) as (R1 & R2).
        split; [exists n; split; [lia|]; split; [reflexivity|];
                split; [exists m, e; split; [reflexivity | exact Hr]
                       | apply decimal2_read; lia]|].
        split; [exact R1|]. split; [exact R2|].
        split; intros H; discriminate H.
      * rewrite (Clo Hn eq_refl eq_refl).
        split; [exists 50%positive;
                split; [lia|]; split; [vm_compute; reflexivity|];
                split; [exact N05 | apply (decimal2_read 50); lia]|].
        split; [vm_compute; reflexivity|].
        split; [vm_compute; reflexivity|].
        split; [intros H; discriminate H|].
        intros _. vm_compute. reflexivity.
Qed.

End ClampAnyNumber.

Section Zoom.

Import Geometry.

Local Open Scope float_scope.

(** Two numbers that compare unequal are not the same number. *)
Ltac float_neq H :=
  match type of H with
  | ?a = ?b =>
      apply (f_equal (fun x => PrimFloat.eqb x b)) in H;
      vm_compute in H; discriminate H
  end.

Ltac on_grid H :=
  simpl in H;
  repeat (destruct H as [H|H]; [subst|]); [..|contradiction H].

Ltac pick_grid :=
  vm_compute; repeat (first [left; reflexivity | right]).

Lemma changeZoomLevel_grid (delta z : float) :
  delta = 0.25 \/ delta = -0.25 ->
  In z zoom_grid -> In (changeZoomLevel delta z) zoom_grid.
Proof.
  intros [-> | ->] H; on_grid H; pick_grid.
Qed.

Lemma step_zoom_grid (e : Event) (v : View) :
  In (zoomLevel v) zoom_grid -> In (zoomLevel (step e v)) zoom_grid.
Proof.
  intros H. destruct e as [natural|top| | |deltaY|]; simpl.
  - exact H.
  - exact H.
  - apply changeZoomLevel_grid; auto.
  - apply changeZoomLevel_grid; auto.
  - unfold handleCtrlWheel.
    destruct (PrimFloat.ltb 0 deltaY); apply changeZoomLevel_grid; auto.
  - pick_grid.
Qed.

(** The zoom is always one of the eleven levels. *)
Lemma run_zoom_grid (es : list Event) :
  In (zoomLevel (run es unrendered)) zoom_grid.
Proof.
  unfold run. induction es as [|e es IH] using rev_ind.
  - pick_grid.
  - rewrite fold_left_app. simpl. apply step_zoom_grid. exact IH.
Qed.

(** C7 as stated fails at the upper bound, which eight clicks on [+]
    reach: from 3, [+0.25] is clamped to 3 and [-0.25] then gives 2.75.
    It fails in the same way at the lower bound, two clicks on [-]
    away. *)
Lemma zoom_round_trip_fails_at_bounds :
  zoomLevel (run (repeat ZoomIn 8) unrendered) = 3 /\
  changeZoomLevel (-0.25) (changeZoomLevel 0.25 3) = 2.75 /\
  changeZoomLevel (-0.25) (changeZoomLevel 0.25 3) <> 3 /\
  zoomLevel (run (repeat ZoomOut 2) unrendered) = 0.5 /\
  changeZoomLevel 0.25 (changeZoomLevel (-0.25) 0.5) = 0.75 /\
  changeZoomLevel 0.25 (changeZoomLevel (-0.25) 0.5) <> 0.5.
Proof.
  repeat split; try (vm_compute; reflexivity); intros H; float_neq H.
Qed.

(** C7, amended. For any two numbers, [changeZoomLevel(delta)] adds
    [delta] to the zoom and, when the sum is a number, clamps it to
    [0.5, 3] and rounds the clamped sum to two decimals: the result is
    the number read from [n] hundredths, where [n / 100] is the
    multiple of 0.01 nearest to the clamped sum (the larger of two that
    are equally near), and it is within half a unit in the last place
    of [n / 100]. It is thus a two-decimal value within [0.5, 3]:
    exactly 3 when the sum is above 3, exactly 0.5 when it is not above
    0.5 (when the sum is not a number, neither is the result). The zoom
    of the editor is always one of the levels 0.5, 0.75, ..., 3, and
    from such a level [z] a step of the editor ([+0.25] or [-0.25])
    yields the clamped sum itself, again a level. [+0.25] then [-0.25] gives [z] back unless
    [z] is 3, where it gives 2.75; [-0.25] then [+0.25] gives [z] back
    unless [z] is 0.5, where it gives 0.75. [resetZoomLevel] gives 1. *)
Theorem zoom_steps (zoom delta : float) (es : list Event) :
  (let sum := zoom + delta in
   let r := changeZoomLevel delta zoom in
   (PrimFloat.is_nan sum = true -> r = nan) /\
   (PrimFloat.is_nan sum = false ->
    (exists n,
       (50 <= Z.pos n <= 300)%Z /\ r = decimal2 false n /\
       (exists m e,
          Prim2SF (Math_max 0.5 (Math_min 3 sum)) = S754_finite false m e /\
          nearest_hundredths (exact m e) (Z.pos n)) /\
       within_half_ulp (Z.pos n # 100)%Q r) /\
    PrimFloat.leb 0.5 r = true /\ PrimFloat.leb r 3 = true /\
    (PrimFloat.ltb 3 sum = true -> r = 3) /\
    (PrimFloat.ltb 0.5 sum = false -> r = 0.5))) /\
  (let z := zoomLevel (run es unrendered) in
   In z zoom_grid /\
   (forall step, step = 0.25 \/ step = -0.25 ->
      changeZoomLevel step z = Math_max 0.5 (Math_min 3 (z + step)) /\
      In (changeZoomLevel step z) zoom_grid) /\
   (z <> 3 -> changeZoomLevel (-0.25) (changeZoomLevel 0.25 z) = z) /\
   (z <> 0.5 -> changeZoomLevel 0.25 (changeZoomLevel (-0.25) z) = z) /\
   (z = 3 -> changeZoomLevel (-0.25) (changeZoomLevel 0.25 z) = 2.75) /\
   (z = 0.5 -> changeZoomLevel 0.25 (changeZoomLevel (-0.25) z) = 0.75) /\
   resetZoomLevel z = 1).
Proof.
  split; [exact (changeZoomLevel_any zoom delta)|].
  intros z. pose proof (run_zoom_grid es) as G. fold z in G.
  clearbody z. split; [exact G|].
  split; [|split; [|split; [|split; [|split]]]].
  - intros step [-> | ->]; on_grid G;
      (split; [vm_compute; reflexivity | pick_grid]).
  - intros Hz; on_grid G;
      first [vm_compute; reflexivity | exfalso; apply Hz; reflexivity].
  - intros Hz; on_grid G;
      first [vm_compute; reflexivity | exfalso; apply Hz; reflexivity].
  - intros ->. vm_compute. reflexivity.
  - intros ->. vm_compute. reflexivity.
  - reflexivity.
Qed.

(** The second click on [+] from the initial zoom, and its undoing;
    steps beyond the bounds; and a step of 1/64 from 1, whose sum
    1.015625 is rounded to 1.02, the 102 hundredths nearest to it. *)
Lemma zoom_steps_witness :
  zoomLevel (run [ZoomIn] unrendered) = 1.25 /\
  changeZoomLevel 0.25 1.25 = 1.5 /\
  changeZoomLevel (-0.25) (changeZoomLevel 0.25 1.25) = 1.25 /\
  PrimFloat.leb 0.5 (changeZoomLevel 10 1.25) = true /\
  changeZoomLevel 10 1.25 = 3 /\
  changeZoomLevel (-10) 1.25 = 0.5 /\
  changeZoomLevel 0.015625 1 = decimal2 false 102.
Proof.
  destruct (zoom_steps 1.25 10 [ZoomIn])
    as ((_ & Hany) & _ & Hstep & Hback & _).
  destruct (Hany eq_refl) as (_ & Hlo & _ & Hhi & _).
  destruct (zoom_steps 1.25 (-10) [ZoomIn])
    as ((_ & Hany') & _).
  destruct (Hany' eq_refl) as (_ & _ & _ & _ & Hlow).
  destruct (zoom_steps 1 0.015625 []) as ((_ & Hoff) & _).
  destruct (Hoff eq_refl) as ((n & _ & Hr & (m & e & HP & Hnear) & _) & _).
  split; [reflexivity|].
  split; [vm_compute; reflexivity|].
  split; [apply Hback; intros H; float_neq H|].
  split; [exact Hlo|].
  split; [apply Hhi; reflexivity|].
  split; [apply Hlow; reflexivity|].
  vm_compute in HP. injection HP as <- <-.
  unfold nearest_hundredths, exact in Hnear.
  set (p := Qpower 2 (-52)) in Hnear. vm_compute in p. subst p.
  unfold Qle, Qlt, Qminus, Qplus, Qmult, Qopp, inject_Z in Hnear.
  cbn [Qnum Qden] in Hnear.
  assert (Hn : n = 102%positive) by (clear - Hnear; lia).
  rewrite Hn in Hr. exact Hr.
Defined.

End Zoom.

(* ================================================================== *)
(** * Part III: further properties of the code                         *)
(* ================================================================== *)

(** ** The networked editor: what the user is shown *)

Section LinkIndicator.

Import Web.

(** X1. In every world the editor can reach, the dirty flag is the
    comparison of the buffer with the last-saved snapshot: [isDirty]
    holds exactly when the editor is linked and the two differ, and a
    clean link means they are equal. The watcher, [loadContent] and
    [handleSaveFile] keep this between them. *)
Theorem dirty_flag_tracks_buffer (w : World) :
  reachable w ->
  (isDirty (saveState w) = true <->
   isLinked (saveState w) = true /\ text w <> lastSavedContent w) /\
  (saveState w = linked false -> text w = lastSavedContent w).
Proof.
  intros Hr. pose proof (reachable_classified w Hr) as C.
  unfold classified in C.
  destruct (saveState w) as [|d] eqn:E; simpl.
  - split; [|discriminate]. split; [discriminate | intros [H _]; discriminate H].
  - specialize (C d eq_refl). split.
    + split.
      * intros ->. split; [reflexivity|]. apply Js_eqb_neq.
        destruct (Js.eqb (text w) (lastSavedContent w)); [discriminate C|].
        reflexivity.
      * intros [_ H]. apply Js_eqb_neq in H. rewrite H in C. exact C.
    + intros H. injection H as ->. apply Js_eqb_eq.
      destruct (Js.eqb (text w) (lastSavedContent w)); [reflexivity|].
      discriminate C.
Qed.

(** After the load of ["hello"] the link is clean and the buffer is the
    snapshot; with ["hello!"] typed and a save under way it is dirty
    and they differ. *)
Lemma dirty_flag_tracks_buffer_witness :
  text hello_loaded = lastSavedContent hello_loaded /\
  isDirty (saveState saving) = true /\
  text saving <> lastSavedContent saving.
Proof.
  split.
  - apply (dirty_flag_tracks_buffer hello_loaded);
      [eexists; exact hello_loaded_reachable | reflexivity].
  - split; [reflexivity|].
    apply (proj1 (proj1 (dirty_flag_tracks_buffer saving
                           (ex_intro _ saving_events saving_reachable)))
                 eq_refl).
Defined.

Lemma saveTip_inj (s1 s2 : SaveState) : saveTip s1 = saveTip s2 -> s1 = s2.
Proof.
  destruct s1 as [|[|]], s2 as [|[|]]; intros H;
    first [reflexivity | discriminate H].
Qed.

(** X2. The status label tells the three link states apart, so in every
    world the editor can reach it reads [Saved] exactly when the editor
    is linked and the buffer equals the snapshot, [Modified] exactly
    when it is linked and they differ, and [Unlinked] exactly when it
    is unlinked. *)
Theorem saveTip_tells_link (w : World) :
  reachable w ->
  (forall s, saveTip s = saveTip (saveState w) <-> s = saveState w) /\
  (saveTip (saveState w) = 10003%N :: Js.lit " Saved" <->
   isLinked (saveState w) = true /\ text w = lastSavedContent w) /\
  (saveTip (saveState w) = 9679%N :: Js.lit " Modified" <->
   isLinked (saveState w) = true /\ text w <> lastSavedContent w) /\
  (saveTip (saveState w) = 9888%N :: Js.lit " Unlinked" <->
   saveState w = unlinked).
Proof.
  intros Hr. pose proof (reachable_classified w Hr) as C.
  unfold classified in C.
  split; [intros s; split; [apply saveTip_inj | intros ->; reflexivity]|].
  destruct (saveState w) as [|d] eqn:E.
  - repeat split; try discriminate; try reflexivity;
      intros [H _]; discriminate H.
  - specialize (C d eq_refl).
    destruct (Js.eqb (text w) (lastSavedContent w)) eqn:B; subst d.
    + apply Js_eqb_eq in B.
      repeat split; try discriminate; try reflexivity; try assumption.
      intros [_ H]. contradiction.
    + apply Js_eqb_neq in B.
      repeat split; try discriminate; try reflexivity; try assumption.
      intros [_ H]. contradiction.
Qed.

Lemma saveTip_tells_link_witness :
  saveTip (saveState hello_loaded) = 10003%N :: Js.lit " Saved" /\
  saveTip (saveState saving) = 9679%N :: Js.lit " Modified" /\
  saveTip (saveState mounted) = 9888%N :: Js.lit " Unlinked".
Proof.
  split; [|split].
  - apply (saveTip_tells_link hello_loaded);
      [eexists; exact hello_loaded_reachable | split; reflexivity].
  - apply (saveTip_tells_link saving);
      [exact (ex_intro _ saving_events saving_reachable)|].
    split; [reflexivity | vm_compute; discriminate].
  - apply (saveTip_tells_link mounted);
      [exists []; reflexivity | reflexivity].
Defined.

(** X3. [confirmLeave] holds the page back exactly when the editor is
    unlinked or, in a world the editor can reach, the buffer differs
    from the snapshot; otherwise it leaves the event as it found it.
    Whenever it holds the page back the event is the same: default
    prevented, empty [returnValue]. *)
Theorem confirmLeave_guards_edits (w : World) (event : Unload) :
  reachable w ->
  defaultPrevented event = false ->
  (defaultPrevented (confirmLeave (saveState w) event) = true <->
   saveState w = unlinked \/ text w <> lastSavedContent w) /\
  (defaultPrevented (confirmLeave (saveState w) event) = false ->
   confirmLeave (saveState w) event = event /\
   text w = lastSavedContent w) /\
  (defaultPrevented (confirmLeave (saveState w) event) = true ->
   confirmLeave (saveState w) event = mkUnload true []).
Proof.
  intros Hr Hev. pose proof (reachable_classified w Hr) as C.
  unfold classified in C. unfold confirmLeave.
  destruct (saveState w) as [|d] eqn:E; simpl.
  - split; [split; auto|]. split; [discriminate | reflexivity].
  - specialize (C d eq_refl).
    destruct (Js.eqb (text w) (lastSavedContent w)) eqn:B; subst d; simpl.
    + apply Js_eqb_eq in B. rewrite Hev. split.
      * split; [discriminate|]. intros [H|H]; [discriminate H | contradiction].
      * split; [auto | discriminate].
    + apply Js_eqb_neq in B. split; [split; auto|].
      split; [discriminate | reflexivity].
Qed.

Lemma confirmLeave_guards_edits_witness :
  confirmLeave (saveState hello_loaded) (mkUnload false (Js.lit "x"))
  = mkUnload false (Js.lit "x") /\
  confirmLeave (saveState saving) (mkUnload false (Js.lit "x"))
  = mkUnload true [].
Proof.
  split.
  - apply (confirmLeave_guards_edits hello_loaded
             (mkUnload false (Js.lit "x")));
      [eexists; exact hello_loaded_reachable | reflexivity | reflexivity].
  - apply (confirmLeave_guards_edits saving (mkUnload false (Js.lit "x")));
      [exact (ex_intro _ saving_events saving_reachable)
      | reflexivity | reflexivity].
Defined.

Lemma marks_snoc (ms : list Mark) (m : Mark) (s : SaveState) :
  marks (ms ++ [m]) s = mark m (marks ms s).
Proof. unfold marks. rewrite fold_left_app. reflexivity. Qed.

Lemma marks_isLinked (ms : list Mark) (s : SaveState) :
  isLinked (marks ms s) = isLinked s.
Proof.
  induction ms as [|m ms IH] using rev_ind; [reflexivity|].
  rewrite marks_snoc, <- IH.
  destruct m, (marks ms s); reflexivity.
Qed.

(** X4. Any sequence of [markDirty] and [markSaved] calls leaves an
    unlinked editor unlinked and a linked one linked; on a linked one
    the dirty flag is that of the last call (the flag it started with,
    if there was none). They never link, and never unlink. *)
Theorem marks_last_wins (ms : list Mark) (s : SaveState) :
  isLinked (marks ms s) = isLinked s /\
  isDirty (marks ms s) =
  (isLinked s && match rev ms with
                 | [] => isDirty s
                 | ToDirty :: _ => true
                 | ToSaved :: _ => false
                 end)%bool.
Proof.
  split; [apply marks_isLinked|].
  induction ms as [|m0 ms0 _] using rev_ind.
  - destruct s as [|[|]]; reflexivity.
  - rewrite rev_app_distr, marks_snoc. simpl.
    pose proof (marks_isLinked ms0 s) as L.
    destruct m0, (marks ms0 s), s; simpl in *; congruence.
Qed.

End LinkIndicator.

(** ** The networked editor: what a turn of the event loop can change *)

Section Transitions.

Import Web.

(** One turn from a world given by its cells, by cases on the event and,
    for a settlement, on the promise and the way it settles; what the
    turn computes is put for the world after it. *)
Ltac turn_cases e Hstep :=
  destruct e as [?newText| | |?k ?r]; unfold step in Hstep;
  cbn [text title saveState lastSavedContent isLoading suspended timers
       effects] in Hstep;
  [ injection Hstep as <-
  | injection Hstep as <-
  | match type of Hstep with
    | context [match ?tm with [] => _ | _ :: _ => _ end] =>
        destruct tm eqn:?; [discriminate Hstep|]; injection Hstep as <-
    end
  | match type of Hstep with
    | context [remove_first ?k ?su] =>
        destruct (remove_first k su) eqn:?; [|discriminate Hstep];
        destruct k as [[|]|[|]| | |], r as [|[|]|?data];
        unfold continue in Hstep; try discriminate Hstep;
        injection Hstep as <-
    end ].

(** The world after the turn, cell by cell, the watcher included; then
    one case for each outcome of each test made on the way. *)
Ltac cell_by_cell :=
  unfold flush_watch, watch_text;
  cbv beta iota zeta delta
      [checkLink checkLink_fetched
       handleSaveFile_parsed handleSaveFile_fetched handleSaveFile_catch
       handleSaveFile loadContent_parsed loadContent_fetched
       loadContent_catch loadContent resume adopt_load adopt_save
       setTimeout_checkLink await emit
       set_text set_title set_saveState set_lastSavedContent
       set_isLoading set_suspended set_timers
       markLinked markUnlinked markSaved markDirty isLinked negb
       text title saveState lastSavedContent isLoading suspended timers
       effects];
  repeat match goal with
         | |- context [match ?x with _ => _ end] =>
             lazymatch x with
             | context [match _ with _ => _ end] => fail
             | _ => destruct x eqn:?; simpl
             end
         end.

Lemma step_text (e : Event) (w w' : World) :
  step e w = Some w' ->
  text w' = text w \/ e = Input (text w') \/
  exists k data, e = Settles k (Json data) /\ text w' = data_content data.
Proof.
  intros Hstep. destruct w as [t ti s l ld su tm ef].
  turn_cases e Hstep; cell_by_cell;
    first [left; reflexivity | right; left; reflexivity
          | right; right; eexists; eexists; split; reflexivity].
Qed.

Lemma step_title (e : Event) (w w' : World) :
  step e w = Some w' ->
  title w' = title w \/
  exists k data, e = Settles k (Json data) /\ title w' = data_title data.
Proof.
  intros Hstep. destruct w as [t ti s l ld su tm ef].
  turn_cases e Hstep; cell_by_cell;
    first [left; reflexivity
          | right; eexists; eexists; split; reflexivity].
Qed.

Lemma step_lastSavedContent (e : Event) (w w' : World) :
  step e w = Some w' ->
  lastSavedContent w' = lastSavedContent w \/
  exists k data,
    e = Settles k (Json data) /\ lastSavedContent w' = data_content data.
Proof.
  intros Hstep. destruct w as [t ti s l ld su tm ef].
  turn_cases e Hstep; cell_by_cell;
    first [left; reflexivity
          | right; eexists; eexists; split; reflexivity].
Qed.

(** X5. Whatever the turn of the event loop, the buffer changes only by
    the user's input or by a response that parsed, which also is all
    that can change the title and the snapshot: no failure, no poll and
    no timer writes any of the three. *)
Theorem cells_written_by (e : Event) (w w' : World) :
  step e w = Some w' ->
  (text w' = text w \/ e = Input (text w') \/
   exists k data, e = Settles k (Json data) /\ text w' = data_content data) /\
  (title w' = title w \/
   exists k data, e = Settles k (Json data) /\ title w' = data_title data) /\
  (lastSavedContent w' = lastSavedContent w \/
   exists k data,
     e = Settles k (Json data) /\ lastSavedContent w' = data_content data).
Proof.
  intros Hstep. split; [|split].
  - exact (step_text e w w' Hstep).
  - exact (step_title e w w' Hstep).
  - exact (step_lastSavedContent e w w' Hstep).
Qed.

(** A failed save, a failed poll and a fired timer in the world where
    ["hello!"] is being saved: the buffer stays. *)
Lemma cells_written_by_witness :
  Forall (fun e => exists w', step e saving = Some w' /\
                              text w' = Js.lit "hello!" /\
                              title w' = Some (Js.lit "doc") /\
                              lastSavedContent w' = Js.lit "hello")
         [Settles SaveJson Rejects; Settles StatusFetch (Response false);
          Settles StatusFetch Rejects; SaveRequest].
Proof.
  assert (H : forall e w',
             step e saving = Some w' ->
             (forall k data, e <> Settles k (Json data)) ->
             (forall x, e <> Input x) ->
             text w' = Js.lit "hello!" /\
             title w' = Some (Js.lit "doc") /\
             lastSavedContent w' = Js.lit "hello").
  { intros e w' Hstep Hj Hi.
    destruct (cells_written_by e saving w' Hstep) as (Ht & Hti & Hl).
    split; [|split].
    - destruct Ht as [Ht|[Ht|(k & d & Ht & _)]];
        [rewrite Ht; reflexivity | destruct (Hi _ Ht) | destruct (Hj _ _ Ht)].
    - destruct Hti as [Hti|(k & d & Hti & _)];
        [rewrite Hti; reflexivity | destruct (Hj _ _ Hti)].
    - destruct Hl as [Hl|(k & d & Hl & _)];
        [rewrite Hl; reflexivity | destruct (Hj _ _ Hl)]. }
  repeat (apply Forall_cons;
          [cbv beta;
           match goal with
           | |- exists w', step ?e saving = Some w' /\ _ =>
               eexists; split; [reflexivity|];
               apply (H e _ eq_refl); intros; discriminate
           end|]).
  apply Forall_nil.
Defined.

(** A string is not different from itself. *)
Ltac same_string :=
  match goal with
  | H : Js.eqb ?a ?a = false |- _ =>
      rewrite (Js_eqb_refl a) in H; discriminate H
  end.

Lemma step_links (e : Event) (w w' : World) :
  step e w = Some w' ->
  saveState w = unlinked -> saveState w' <> unlinked ->
  exists k data,
    e = Settles k (Json data) /\ data_saved data = true /\
    saveState w' = linked false.
Proof.
  intros Hstep. destruct w as [t ti s l ld su tm ef].
  turn_cases e Hstep; cell_by_cell; simpl; intros Hs Hs'; subst;
    try discriminate; try (contradiction Hs'; reflexivity);
    try same_string;
    eexists; eexists; repeat split; eauto.
Qed.

Lemma step_dirties (e : Event) (w w' : World) :
  step e w = Some w' ->
  saveState w' = linked true -> saveState w <> linked true ->
  exists newText,
    e = Input newText /\ saveState w = linked false /\
    newText <> lastSavedContent w.
Proof.
  intros Hstep. destruct w as [t ti s l ld su tm ef].
  turn_cases e Hstep; cell_by_cell; simpl; intros Hs' Hs; subst;
    try discriminate; try (contradiction Hs; reflexivity);
    try same_string;
    repeat match goal with
           | d : bool |- _ =>
               destruct d; try discriminate;
               try (contradiction Hs; reflexivity)
           end.
  all: eexists; repeat split; try reflexivity.
  all: apply Js_eqb_neq; assumption.
Qed.

Lemma step_unlinks (e : Event) (w w' : World) :
  step e w = Some w' ->
  saveState w <> unlinked -> saveState w' = unlinked ->
  (exists k, e = Settles k Rejects \/ e = Settles k (Response false)) \/
  (exists k data, e = Settles k (Json data) /\ data_saved data = false).
Proof.
  intros Hstep. destruct w as [t ti s l ld su tm ef].
  turn_cases e Hstep; cell_by_cell; simpl; intros Hs Hs'; subst;
    try discriminate; try (contradiction Hs; reflexivity);
    try same_string;
    first [ left; eexists; left; reflexivity
          | left; eexists; right; reflexivity
          | right; eexists; eexists; split; [reflexivity | assumption] ].
Qed.

(** X6. How the link state moves in one turn of the event loop. An
    unlinked editor becomes linked only by a parsed response whose
    [saved] is true, and then it is clean. An editor becomes dirty only
    by input that differs from the snapshot, typed while it was clean.
    A linked editor becomes unlinked only by a rejection, a status that
    is not a success, or a parsed response whose [saved] is false. *)
Theorem link_state_moves_by (e : Event) (w w' : World) :
  step e w = Some w' ->
  (saveState w = unlinked -> saveState w' <> unlinked ->
   exists k data,
     e = Settles k (Json data) /\ data_saved data = true /\
     saveState w' = linked false) /\
  (saveState w' = linked true -> saveState w <> linked true ->
   exists newText,
     e = Input newText /\ saveState w = linked false /\
     newText <> lastSavedContent w) /\
  (saveState w <> unlinked -> saveState w' = unlinked ->
   (exists k, e = Settles k Rejects \/ e = Settles k (Response false)) \/
   (exists k data, e = Settles k (Json data) /\ data_saved data = false)).
Proof.
  intros Hstep. split; [|split].
  - exact (step_links e w w' Hstep).
  - exact (step_dirties e w w' Hstep).
  - exact (step_unlinks e w w' Hstep).
Qed.

(** Typing into the unlinked, freshly mounted editor does not link it;
    typing ["hello!"] after the load of ["hello"] is what makes it
    dirty. *)
Lemma link_state_moves_by_witness :
  (exists w', step (Input (Js.lit "x")) mounted = Some w' /\
              saveState w' = unlinked) /\
  (exists w', step (Input (Js.lit "hello!")) hello_loaded = Some w' /\
              saveState w' = linked true).
Proof.
  split; eexists; (split; [reflexivity|]).
  - destruct (saveState (flush_watch (text mounted)
                           (set_text (Js.lit "x") mounted))) eqn:E;
      [reflexivity|].
    destruct (proj1 (link_state_moves_by (Input (Js.lit "x")) mounted _
                       eq_refl) eq_refl)
      as (k & data & H & _); [rewrite E; discriminate | discriminate H].
  - reflexivity.
Defined.

Lemma accounted_step (e : Event) (w w' : World) :
  accounted w -> step e w = Some w' -> accounted w'.
Proof.
  unfold accounted, alerts, posts, saves_in_flight. intros [A M] Hstep.
  destruct w as [t ti s l ld su tm ef]; simpl in A, M.
  turn_cases e Hstep;
    try match goal with
        | R : remove_first _ _ = Some _ |- _ =>
            rewrite (remove_first_count is_save_op _ _ _ R) in A
        end;
    cell_by_cell; simpl in *;
    (split;
     [ lia
     | intros msg H;
       repeat match goal with
              | H : _ \/ _ |- _ => destruct H as [H|H]
              end;
       try discriminate H; eauto;
       injection H as <-; reflexivity ]).
Qed.

Lemma accounted_mounted : accounted mounted.
Proof.
  split; [vm_compute; lia|].
  intros msg [H|[H|[]]]; discriminate H.
Qed.

(** X7. In every world the editor can reach, the failure notices shown
    and the saves still in flight together number no more than the save
    requests sent: a save is answered by at most one notice, and loads
    and polls, whatever becomes of them, by none. Every notice shown is
    the one text of [handleSaveFile]. *)
Theorem alerts_answer_saves (w : World) :
  reachable w ->
  (alerts w + saves_in_flight w <= posts w)%nat /\
  forall msg, In (Alert msg) (effects w) -> msg = save_failure_notice.
Proof.
  intros Hr.
  exact (reachable_invariant accounted accounted_mounted accounted_step
           w Hr).
Qed.

(** With the save of ["hello!"] on its way: one request sent, one save
    in flight, no notice. *)
Lemma alerts_answer_saves_witness :
  (alerts saving + saves_in_flight saving <= posts saving)%nat /\
  forall msg, In (Alert msg) (effects saving) -> msg = save_failure_notice.
Proof.
  apply alerts_answer_saves. exists saving_events. vm_compute. reflexivity.
Defined.

End Transitions.

Section RoundTrips.

Import Web.

Lemma run_app (es1 es2 : list Event) (w : World) :
  run (es1 ++ es2) w =
  match run es1 w with
  | Some w1 => run es2 w1
  | None => None
  end.
Proof.
  revert w; induction es1 as [|e es1 IH]; simpl; intros w; [reflexivity|].
  destruct (step e w); [apply IH | reflexivity].
Qed.

(** Typing writes the buffer and, through the watcher, the link state;
    nothing else. *)
Lemma run_typing (ins : list Js.str) (t : Js.str) (ti : option Js.str)
      (s : SaveState) (l : Js.str) (ld : bool) (su : list Suspended)
      (tm : list Z) (ef : list Effect) :
  exists t' s',
    run (map Input ins) (mkWorld t ti s l ld su tm ef)
    = Some (mkWorld t' ti s' l ld su tm ef).
Proof.
  revert t s; induction ins as [|i ins IH]; intros t s; cbn [map run].
  - eauto.
  - unfold step.
    destruct (flush_watch_shape
                (text (mkWorld t ti s l ld su tm ef))
                (set_text i (mkWorld t ti s l ld su tm ef))) as [s' ->].
    apply IH.
Qed.

(** X8. A poll that finds the server up while the editor is linked and
    clean, with no load or save in flight, reloads the document; what
    the user types while the reload runs is replaced by the response,
    whatever it is, and the link state is the response's. The run sends
    one content request and sets one timer for the next poll; it shows
    no notice and leaves nothing pending that was not. *)
Theorem poll_reload_replaces_typing
        (w : World) (a b : list Js.str) (data : Doc) :
  saveState w = linked false -> isLoading w = false ->
  In StatusFetch (suspended w) ->
  exists w',
    run (poll_reload a b data) w = Some w' /\
    text w' = data_content data /\
    title w' = data_title data /\
    lastSavedContent w' = data_content data /\
    saveState w' = link_of data /\
    isLoading w' = false /\
    suspended w' = suspended (settled StatusFetch w) /\
    timers w' = timers w ++ [CHECK_LINK_MS] /\
    effects w' =
      SetTimeout_checkLink CHECK_LINK_MS ::
      Fetch (GET API_CONTENT_URL) :: effects w.
Proof.
  intros Hs Hl Hin. destruct w as [t ti s l ld su tm ef].
  simpl in Hs, Hl, Hin. subst s ld.
  destruct (remove_first_In _ _ Hin) as [rest Hrest].
  unfold poll_reload, settled. cbn [run suspended].
  unfold step at 1. cbn [suspended]. rewrite Hrest.
  cbv beta iota delta [continue checkLink_fetched loadContent await emit
                       set_isLoading set_suspended
                       saveState isLoading text title lastSavedContent
                       suspended timers effects].
  rewrite run_app.
  match goal with
  | |- context [run (map Input a) (mkWorld ?t ?ti ?s ?l ?ld ?su ?tm ?ef)] =>
      destruct (run_typing a t ti s l ld su tm ef) as (t1 & s1 & ->)
  end.
  cbn [run]. unfold step at 1. cbn [suspended remove_first Suspended_eqb].
  cbv beta iota delta [continue loadContent_fetched await set_suspended
                       saveState isLoading text title lastSavedContent
                       suspended timers effects].
  rewrite run_app.
  match goal with
  | |- context [run (map Input b) (mkWorld ?t ?ti ?s ?l ?ld ?su ?tm ?ef)] =>
      destruct (run_typing b t ti s l ld su tm ef) as (t2 & s2 & ->)
  end.
  cbn [run]. unfold step at 1. cbn [suspended remove_first Suspended_eqb].
  cbv beta iota delta [continue]. rewrite loadContent_parsed_some.
  eexists. split; [reflexivity|].
  unfold adopt_load, link_of. destruct (data_saved data); simpl;
    repeat split; reflexivity.
Qed.

(** After the load of ["hello"], with the poll's status request pending:
    the user types ["hello!"] while the reload is being fetched, and the
    response brings ["hello"] back. *)
Lemma poll_reload_replaces_typing_witness :
  exists w',
    run (poll_reload [Js.lit "hello!"] [] hello_doc) hello_loaded = Some w' /\
    text w' = Js.lit "hello" /\ saveState w' = linked false.
Proof.
  destruct (poll_reload_replaces_typing
              hello_loaded [Js.lit "hello!"] [] hello_doc
              eq_refl eq_refl (or_introl eq_refl))
    as (w' & Hrun & Ht & _ & _ & Hs & _).
  exists w'. split; [exact Hrun|]. split; [exact Ht | exact Hs].
Defined.

(** X9. A save asked for while no load or save is in flight, whose
    request and parse succeed: the one request sent carries the buffer
    and the title of the moment of asking with [saved: false]; what the
    user types while the save runs is not sent and is replaced by the
    response, whose the link state is. No notice is shown, no timer
    set, and what was pending still is. *)
Theorem save_cycle_replaces_typing
        (w : World) (a b : list Js.str) (data : Doc) :
  isLoading w = false ->
  exists w',
    run (save_cycle a b data) w = Some w' /\
    text w' = data_content data /\
    title w' = data_title data /\
    lastSavedContent w' = data_content data /\
    saveState w' = link_of data /\
    isLoading w' = false /\
    suspended w' = suspended w /\
    timers w' = timers w /\
    effects w' =
      Fetch (POST API_CONTENT_URL (mkDoc (text w) (title w) false)) ::
      effects w.
Proof.
  intros Hl. destruct w as [t ti s l ld su tm ef].
  simpl in Hl. subst ld.
  unfold save_cycle. cbn [run]. unfold step at 1.
  cbv beta iota delta [handleSaveFile await emit
                       set_isLoading set_suspended
                       saveState isLoading text title lastSavedContent
                       suspended timers effects].
  rewrite run_app.
  match goal with
  | |- context [run (map Input a) (mkWorld ?t ?ti ?s ?l ?ld ?su ?tm ?ef)] =>
      destruct (run_typing a t ti s l ld su tm ef) as (t1 & s1 & ->)
  end.
  cbn [run]. unfold step at 1. cbn [suspended remove_first Suspended_eqb].
  cbv beta iota delta [continue handleSaveFile_fetched await set_suspended
                       saveState isLoading text title lastSavedContent
                       suspended timers effects].
  rewrite run_app.
  match goal with
  | |- context [run (map Input b) (mkWorld ?t ?ti ?s ?l ?ld ?su ?tm ?ef)] =>
      destruct (run_typing b t ti s l ld su tm ef) as (t2 & s2 & ->)
  end.
  cbn [run]. unfold step at 1. cbn [suspended remove_first Suspended_eqb].
  cbv beta iota delta [continue]. rewrite handleSaveFile_parsed_some.
  eexists. split; [reflexivity|].
  unfold adopt_save, link_of. destruct (data_saved data); simpl;
    repeat split; reflexivity.
Qed.

(** From the loaded ["hello"]: the user asks for a save, types
    ["hello!"] while it is sent, and the server answers with the
    ["hello"] it was sent. *)
Lemma save_cycle_replaces_typing_witness :
  exists w',
    run (save_cycle [Js.lit "hello!"] [] hello_doc) hello_loaded = Some w' /\
    text w' = Js.lit "hello" /\ saveState w' = linked false.
Proof.
  destruct (save_cycle_replaces_typing
              hello_loaded [Js.lit "hello!"] [] hello_doc eq_refl)
    as (w' & Hrun & Ht & _ & _ & Hs & _).
  exists w'. split; [exact Hrun|]. split; [exact Ht | exact Hs].
Defined.

End RoundTrips.

(** ** The standalone editors *)

Section Titles.

Import Standalone.

Lemma in_class_not_white (c : N) :
  in_class c = true -> Js.isWhite c = false.
Proof.
  unfold in_class, class_units. simpl.
  rewrite !orb_true_iff, !N.eqb_eq.
  intros [->|[->|[->|[->|[->|[->|[->|[->|H]]]]]]]];
    [reflexivity.. | discriminate H].
Qed.

Lemma isWhite_purify (c : N) :
  Js.isWhite (if in_class c then underscore else c) = Js.isWhite c.
Proof.
  destruct (in_class c) eqn:E; [|reflexivity].
  rewrite (in_class_not_white c E). reflexivity.
Qed.

Lemma trimStart_purify (s : Js.str) :
  Js.trimStart (purifyFilename s) = purifyFilename (Js.trimStart s).
Proof.
  unfold purifyFilename. induction s as [|c s IH]; simpl; [reflexivity|].
  rewrite isWhite_purify. destruct (Js.isWhite c); [exact IH | reflexivity].
Qed.

Lemma trim_purify (s : Js.str) :
  Js.trim (purifyFilename s) = purifyFilename (Js.trim s).
Proof.
  unfold Js.trim, Js.trimEnd. rewrite trimStart_purify.
  unfold purifyFilename at 1. rewrite <- map_rev.
  fold (purifyFilename (rev (Js.trimStart s))).
  rewrite trimStart_purify. unfold purifyFilename. rewrite map_rev.
  reflexivity.
Qed.

Lemma headed_trimStart (s : Js.str) : headed (Js.trimStart s).
Proof.
  induction s as [|c s IH]; simpl; [exact I|].
  destruct (Js.isWhite c) eqn:E; [exact IH | exact E].
Qed.

Lemma trimStart_headed (u : Js.str) : headed u -> Js.trimStart u = u.
Proof.
  destruct u as [|c u]; simpl; [reflexivity|]. intros ->. reflexivity.
Qed.

Lemma trimStart_snoc (l : Js.str) (c : N) :
  Js.isWhite c = false -> Js.trimStart (l ++ [c]) = Js.trimStart l ++ [c].
Proof.
  intros Hc. induction l as [|x l IH]; simpl.
  - rewrite Hc. reflexivity.
  - destruct (Js.isWhite x); [exact IH | reflexivity].
Qed.

Lemma headed_trimEnd (u : Js.str) : headed u -> headed (Js.trimEnd u).
Proof.
  destruct u as [|c u]; simpl; [intros _; exact I|]. intros Hc.
  unfold Js.trimEnd. simpl rev. rewrite (trimStart_snoc _ _ Hc).
  rewrite rev_app_distr. simpl. exact Hc.
Qed.

Lemma trim_idempotent (s : Js.str) : Js.trim (Js.trim s) = Js.trim s.
Proof.
  unfold Js.trim.
  rewrite (trimStart_headed (Js.trimEnd (Js.trimStart s))).
  - unfold Js.trimEnd. rewrite rev_involutive.
    rewrite (trimStart_headed (Js.trimStart _)); [reflexivity|].
    apply headed_trimStart.
  - apply headed_trimEnd, headed_trimStart.
Qed.

(** What [requestTitle] (with [DEFAULT_TITLE] to fall back on) and the
    import make of a name. *)
Lemma normal_purify_trim (x : Js.str) :
  normal (purifyFilename
            (if (0 <? List.length (Js.trim x))%nat then Js.trim x
             else DEFAULT_TITLE)).
Proof.
  split; [|split].
  - intros H. apply (f_equal (@List.length N)) in H.
    rewrite purifyFilename_length in H.
    destruct (0 <? List.length (Js.trim x))%nat eqn:E.
    + apply Nat.ltb_lt in E. simpl in H. lia.
    + discriminate H.
  - rewrite trim_purify.
    destruct (0 <? List.length (Js.trim x))%nat.
    + rewrite trim_idempotent. reflexivity.
    + reflexivity.
  - intros c. apply purifyFilename_clean.
Qed.

Lemma requestTitle_normal (init t input : option Js.str) (value : Js.str) :
  requestTitle (mkOptions init (Some DEFAULT_TITLE)) t input = Some value ->
  normal value.
Proof.
  unfold requestTitle. destruct input as [typed|]; [|discriminate].
  intros H; injection H as <-. simpl nullish. apply normal_purify_trim.
Qed.

Lemma step_normal_title (e : Event) (s : Session) :
  (forall t, title s = Some t -> normal t) ->
  forall t, title (step e s) = Some t -> normal t.
Proof.
  intros H. destruct e as [input|input|name contents|newText]; simpl.
  - unfold handleChangedTitle.
    destruct (requestTitle _ (title s) input) as [value|] eqn:E;
      [|exact H].
    simpl. intros t Ht; injection Ht as <-.
    eapply requestTitle_normal; exact E.
  - unfold initWithDefaultFile.
    destruct (requestTitle _ (title s) input) as [value|] eqn:E;
      [|exact H].
    simpl. intros t Ht; injection Ht as <-.
    eapply requestTitle_normal; exact E.
  - intros t Ht; injection Ht as <-. apply normal_purify_trim.
  - exact H.
Qed.

Lemma run_normal_title (es : list Event) (t : Js.str) :
  title (run es start) = Some t -> normal t.
Proof.
  unfold run. revert t. induction es as [|e es IH] using rev_ind.
  - intros t H; discriminate H.
  - intros t. rewrite fold_left_app. simpl. apply step_normal_title.
    exact IH.
Qed.

(** X10. Every title the session ever holds, however it was typed or
    whatever the file was called, is not empty, has no white space
    at either end, and has none of the eight units of the class. *)
Theorem held_title_normal (es : list Event) (t : Js.str) :
  title (run es start) = Some t ->
  t <> [] /\ Js.trim t = t /\ clean t.
Proof. exact (run_normal_title es t). Qed.

(** The user enters with the title [ a:b ] (a space on either side),
    then cancels a rename. *)
Lemma held_title_normal_witness :
  Js.lit "a_b" <> [] /\ Js.trim (Js.lit "a_b") = Js.lit "a_b" /\
  clean (Js.lit "a_b").
Proof.
  apply (held_title_normal
           [EnterDirectly (Some (Js.lit " a:b ")); ChangeTitle None]).
  vm_compute. reflexivity.
Defined.

Lemma step_entered (e : Event) (s : Session) : entered s -> entered (step e s).
Proof.
  unfold entered. intros H.
  destruct e as [input|input|name contents|newText]; simpl.
  - unfold handleChangedTitle.
    destruct (requestTitle _ (title s) input) as [value|]; [|exact H].
    simpl. intros Hi. destruct (H Hi) as [_ Htxt]. eauto.
  - unfold initWithDefaultFile.
    destruct (requestTitle _ (title s) input) as [value|]; [|exact H].
    simpl. eauto.
  - eauto.
  - intros Hi. destruct (H Hi) as [Ht _]. eauto.
Qed.

Lemma run_entered (es : list Event) : entered (run es start).
Proof.
  unfold run. induction es as [|e es IH] using rev_ind.
  - intros H; discriminate H.
  - rewrite fold_left_app. simpl. apply step_entered. exact IH.
Qed.

(** X11. In every session: before the editor is entered nothing is
    exported and the page is left without a prompt; once it is entered
    there is a title [t] and a buffer [txt], the file offered is named
    [t.txt] and holds [txt] unit for unit, the window title is [t], and
    leaving is held back. The fallback to [DEFAULT_TITLE] in
    [downloadFilename] and [displayTitle] is never taken there. *)
Theorem export_names_title (es : list Event) :
  let s := run es start in
  (hasInit s = false ->
   handleSaveFile s = None /\ confirmLeave s = false) /\
  (hasInit s = true ->
   exists t txt,
     title s = Some t /\ text s = Some txt /\
     handleSaveFile s = Some (mkDownload (t ++ Js.lit ".txt") txt) /\
     displayTitle s = t /\
     confirmLeave s = true).
Proof.
  intros s. split; intros Hi.
  - unfold handleSaveFile, confirmLeave. rewrite Hi. auto.
  - destruct (run_entered es Hi) as [[t Ht] [txt Htxt]]. fold s in Ht, Htxt.
    destruct (run_normal_title es t Ht) as (Hne & Htrim & _).
    exists t, txt. split; [exact Ht|]. split; [exact Htxt|].
    unfold handleSaveFile, downloadFilename, displayTitle, confirmLeave.
    rewrite Hi, Ht, Htxt. simpl. rewrite Htrim.
    destruct t as [|c t]; [contradiction Hne; reflexivity|].
    simpl. auto.
Qed.

Lemma is_extension_inner (c : N) (rest : Js.str) :
  c <> 46%N \/ In 46%N rest \/ rest = [] -> is_extension (c :: rest) = false.
Proof.
  intros H. destruct (N.eq_dec c 46) as [->|Hc].
  - destruct H as [H|[H| ->]]; [contradiction H; reflexivity | | reflexivity].
    simpl. apply andb_false_iff. right.
    apply not_true_is_false. intros F.
    rewrite forallb_forall in F. specialize (F _ H). discriminate F.
  - clear H. unfold is_extension.
    repeat match goal with
           | |- context [match ?p with _ => _ end] =>
               is_var p; destruct p
           end;
      try reflexivity; contradiction Hc; reflexivity.
Qed.

Lemma is_extension_plain (ext : Js.str) :
  ext <> [] -> plain ext -> is_extension (46%N :: ext) = true.
Proof.
  intros Hne Hp. simpl. apply andb_true_iff. split.
  - destruct ext; [contradiction Hne; reflexivity | reflexivity].
  - apply forallb_forall. intros c Hc. destruct (Hp c Hc) as [H1 H2].
    apply negb_true_iff, orb_false_iff.
    split; apply N.eqb_neq; assumption.
Qed.

(** X12. What the import strips off a file name, when [ext] has neither
    dot nor slash: from [base.ext], the last dot and [ext], whatever
    [base] is (dots included, empty included: a file called [.ext]
    comes out empty); from a name that ends in a dot, nothing; from a
    name without a dot, nothing. *)
Theorem dropExtension_last_only (base ext : Js.str) :
  plain ext ->
  (ext <> [] -> dropExtension (base ++ 46%N :: ext) = base) /\
  dropExtension (base ++ [46%N]) = base ++ [46%N] /\
  dropExtension ext = ext.
Proof.
  intros Hp. split; [|split].
  - intros Hne. induction base as [|c base IH].
    + simpl app. unfold dropExtension.
      rewrite (is_extension_plain ext Hne Hp). reflexivity.
    + simpl app. cbn [dropExtension].
      rewrite is_extension_inner; [rewrite IH; reflexivity|].
      right; left. apply in_or_app. right. left. reflexivity.
  - induction base as [|c base IH].
    + reflexivity.
    + simpl app. cbn [dropExtension].
      rewrite is_extension_inner; [rewrite IH; reflexivity|].
      right; left. apply in_or_app. right. left. reflexivity.
  - induction ext as [|c ext IH]; [reflexivity|].
    cbn [dropExtension].
    rewrite is_extension_inner.
    + rewrite IH; [reflexivity|].
      intros x Hx. apply Hp. right. exact Hx.
    + left. apply (Hp c). left. reflexivity.
Qed.

(** [archive.tar.gz] loses [.gz] only; [.gitignore] loses everything,
    and is opened under the default title. *)
Lemma dropExtension_last_only_witness :
  dropExtension (Js.lit "archive.tar.gz") = Js.lit "archive.tar" /\
  dropExtension (Js.lit ".gitignore") = [] /\
  title (initWithFile (Js.lit ".gitignore") None start) = Some DEFAULT_TITLE.
Proof.
  assert (Hgz : plain (Js.lit "gz")).
  { intros c [<-|[<-|[]]]; split; discriminate. }
  assert (Hgi : plain (Js.lit "gitignore")).
  { intros c H; simpl in H.
    repeat (destruct H as [<-|H]; [split; discriminate|]).
    contradiction H. }
  split; [|split].
  - apply (proj1 (dropExtension_last_only (Js.lit "archive.tar")
                    (Js.lit "gz") Hgz)).
    discriminate.
  - apply (proj1 (dropExtension_last_only [] (Js.lit "gitignore") Hgi)).
    discriminate.
  - reflexivity.
Defined.

Lemma purifyFilename_fixed (raw : Js.str) :
  purifyFilename raw = raw <-> clean raw.
Proof.
  unfold purifyFilename, clean. induction raw as [|c raw IH]; simpl.
  - split; [intros _ x [] | reflexivity].
  - split.
    + intros H. injection H as Hc Hr. intros x [<-|Hx].
      * destruct (in_class c) eqn:E; [|reflexivity].
        subst c. discriminate E.
      * apply (proj1 IH Hr x Hx).
    + intros H. rewrite (H c (or_introl eq_refl)). f_equal.
      apply IH. intros x Hx. apply H. right. exact Hx.
Qed.

(** X13. [purifyFilename] is a normal form: applied twice it does what
    it does once; it leaves a name as it is exactly when the name has
    none of the eight units; it works unit by unit, so the pieces of a
    name can be cleaned apart, the length stays, and a unit that is
    changed was one of the eight and becomes an underscore. *)
Theorem purifyFilename_normal_form (a b : Js.str) :
  purifyFilename (purifyFilename a) = purifyFilename a /\
  (purifyFilename a = a <-> clean a) /\
  purifyFilename (a ++ b) = purifyFilename a ++ purifyFilename b /\
  List.length (purifyFilename a) = List.length a /\
  (forall i c, nth_error a i = Some c ->
     nth_error (purifyFilename a) i
     = Some (if in_class c then underscore else c)).
Proof.
  split; [|split; [|split; [|split]]].
  - apply purifyFilename_fixed. intros c. apply purifyFilename_clean.
  - apply purifyFilename_fixed.
  - apply map_app.
  - apply purifyFilename_length.
  - intros i c H. unfold purifyFilename.
    rewrite nth_error_map, H. reflexivity.
Qed.

Lemma count_app (a b : Js.str) (ti : option Js.str) (h : bool) :
  wordCount (mkSession (Some (a ++ b)) ti h)
  = (wordCount (mkSession (Some a) ti h)
     + wordCount (mkSession (Some b) ti h))%nat.
Proof.
  unfold wordCount. simpl. rewrite filter_app, length_app. reflexivity.
Qed.

Lemma count_blank (ws : Js.str) (ti : option Js.str) (h : bool) :
  wordCount (mkSession (Some ws) ti h) = 0%nat <-> blank ws.
Proof.
  unfold wordCount, blank. simpl. induction ws as [|c ws IH]; simpl.
  - split; [intros _ x [] | reflexivity].
  - destruct (Js.isWhite c) eqn:E; simpl.
    + rewrite IH. split.
      * intros H x [<-|Hx]; [exact E | exact (H x Hx)].
      * intros H x Hx. apply H. right. exact Hx.
    + split; [discriminate|].
      intros H. rewrite (H c (or_introl eq_refl)) in E. discriminate E.
Qed.

(** X14. The counter of the status bar counts the code units of the
    buffer that are not white space: the count of two pieces put
    together is the sum of their counts, it is never more than the
    length, it is zero exactly for a buffer of white space only (the
    empty one included, as is the absent one), and white space put in
    anywhere does not change it. *)
Theorem wordCount_skips_white (s : Session) (a ws b : Js.str) :
  blank ws ->
  wordCount (holding (a ++ ws ++ b) s) = wordCount (holding (a ++ b) s) /\
  wordCount (holding (a ++ b) s)
  = (wordCount (holding a s) + wordCount (holding b s))%nat /\
  (wordCount (holding a s) <= List.length a)%nat /\
  (wordCount (holding a s) = 0%nat <-> blank a) /\
  wordCount start = 0%nat.
Proof.
  intros Hws. unfold holding. simpl step.
  split; [|split; [|split; [|split]]].
  - rewrite !count_app.
    rewrite (proj2 (count_blank ws (title s) (hasInit s)) Hws). lia.
  - apply count_app.
  - unfold wordCount. simpl. apply filter_length_le.
  - apply count_blank.
  - reflexivity.
Qed.

(** A line break and two spaces between [ab] and [c]: three units
    counted, as without them. *)
Lemma wordCount_skips_white_witness :
  wordCount (holding (Js.lit "ab" ++ [10; 32; 32]%N ++ Js.lit "c") start)
  = wordCount (holding (Js.lit "ab" ++ Js.lit "c") start).
Proof.
  apply (wordCount_skips_white start (Js.lit "ab") [10; 32; 32]%N
           (Js.lit "c")).
  intros c [<-|[<-|[<-|[]]]]; reflexivity.
Defined.

Lemma trimStart_nil (l : Js.str) : Js.trimStart l = [] <-> blank l.
Proof.
  unfold blank. induction l as [|c l IH]; simpl.
  - split; [intros _ x [] | reflexivity].
  - destruct (Js.isWhite c) eqn:E.
    + rewrite IH. split.
      * intros H x [<-|Hx]; [exact E | exact (H x Hx)].
      * intros H x Hx. apply H. right. exact Hx.
    + split; [discriminate|].
      intros H. rewrite (H c (or_introl eq_refl)) in E. discriminate E.
Qed.

Lemma blank_trimStart (l : Js.str) : blank (Js.trimStart l) -> blank l.
Proof.
  unfold blank. induction l as [|c l IH]; simpl; [tauto|].
  destruct (Js.isWhite c) eqn:E; [|exact (fun H => H)].
  intros H x [<-|Hx]; [exact E | exact (IH H x Hx)].
Qed.

Lemma trim_nil (t : Js.str) : Js.trim t = [] <-> blank t.
Proof.
  unfold Js.trim, Js.trimEnd. split.
  - intros H. apply (f_equal (@rev N)) in H. rewrite rev_involutive in H.
    simpl in H. apply trimStart_nil in H.
    apply blank_trimStart. intros c Hc. apply H, in_rev.
    rewrite rev_involutive. exact Hc.
  - intros H. rewrite (proj2 (trimStart_nil t) H). reflexivity.
Qed.

(** X15. A rename leaves the buffer and the entered flag alone. When
    the dialog is cancelled the session is as it was. When it is
    confirmed the new title is made of the input alone, the title of
    before is only what the dialog proposes: input that is blank gives
    [DEFAULT_TITLE], not the title of before, and any other input gives
    its trimmed text with the units of the class replaced. Entering the
    editor through the dialog computes the title in the same way. *)
Theorem rename_ignores_old_title (s : Session) (typed : Js.str) :
  handleChangedTitle None s = s /\
  initWithDefaultFile None s = s /\
  text (handleChangedTitle (Some typed) s) = text s /\
  hasInit (handleChangedTitle (Some typed) s) = hasInit s /\
  (blank typed ->
   title (handleChangedTitle (Some typed) s) = Some DEFAULT_TITLE) /\
  (~ blank typed ->
   title (handleChangedTitle (Some typed) s)
   = Some (purifyFilename (Js.trim typed))) /\
  title (initWithDefaultFile (Some typed) s)
  = title (handleChangedTitle (Some typed) s).
Proof.
  split; [reflexivity|]. split; [reflexivity|].
  split; [reflexivity|]. split; [reflexivity|].
  split; [|split; [|reflexivity]];
    unfold handleChangedTitle, requestTitle; simpl; intros H.
  - rewrite (proj2 (trim_nil typed) H). reflexivity.
  - destruct (Js.trim typed) as [|c t] eqn:E; [|reflexivity].
    contradiction H. apply trim_nil. exact E.
Qed.


End Titles.

(** ** The zoom indicator *)

Section ZoomIndicator.

Import Geometry.

Local Open Scope float_scope.

Ltac each_level H :=
  simpl in H;
  repeat (destruct H as [H|H]; [subst|]); [..|contradiction H].

Ltac this_level :=
  vm_compute; repeat (first [left; reflexivity | right]).

Lemma indicator_of_level (z : float) :
  In z zoom_grid ->
  In (z, zoomIndicator z) (combine zoom_grid percent_grid).
Proof.
  intros H. each_level H; this_level.
Qed.

(** X16. Whatever the user has done, the indicator of the status bar
    shows the zoom as a whole number of percent, and the right one: 50
    at 0.5, 75 at 0.75, and so on up to 300 at 3; the product by 100
    and its rounding lose nothing at any level the zoom can be at. Each
    of the eleven levels is reached, by clicks on [+] or on [-] alone. *)
Theorem zoomIndicator_exact (es : list Event) :
  In (zoomLevel (run es unrendered),
      zoomIndicator (zoomLevel (run es unrendered)))
     (combine zoom_grid percent_grid) /\
  Forall (fun z =>
            exists n,
              zoomLevel (run (repeat ZoomIn n) unrendered) = z \/
              zoomLevel (run (repeat ZoomOut n) unrendered) = z)
         zoom_grid.
Proof.
  split.
  - apply indicator_of_level, run_zoom_grid.
  - repeat constructor.
    + exists 2%nat. right. vm_compute. reflexivity.
    + exists 1%nat. right. vm_compute. reflexivity.
    + exists 0%nat. left. vm_compute. reflexivity.
    + exists 1%nat. left. vm_compute. reflexivity.
    + exists 2%nat. left. vm_compute. reflexivity.
    + exists 3%nat. left. vm_compute. reflexivity.
    + exists 4%nat. left. vm_compute. reflexivity.
    + exists 5%nat. left. vm_compute. reflexivity.
    + exists 6%nat. left. vm_compute. reflexivity.
    + exists 7%nat. left. vm_compute. reflexivity.
    + exists 8%nat. left. vm_compute. reflexivity.
Qed.

End ZoomIndicator.
